(** * The backend-plugin runtime: managed gRPC plugin processes and core plugins

    A shallow embedding of package [grpcplugin] (type [grpcPlugin]) and of
    package [coreplugin] (type [corePlugin]), with the properties of their
    lifecycle and capability methods.

    A Go method of [*grpcPlugin] becomes a computation in a small monad that
    threads the receiver struct, the world outside the struct (subprocesses,
    transports, response sinks) and a log of the accesses the method makes to
    the mutex and to the mutable fields.  A nil dereference is an outcome of
    its own ([Panicked]), so that "never a nil dereference" is a statement
    about the code and not about the model. *)

From Stdlib Require Import ZArith String List Bool.
Import ListNotations.

Set Implicit Arguments.

(** ** Go's [error] values *)

(** Modelled from the spec: [ErrPluginUnavailable] and
    [ErrMethodNotImplemented] are the sentinel errors of package
    [backendplugin], whose declaration is not among the sources; the spec's
    error taxonomy lists them as two separate errors.  [errors_New msg] is
    [errors.New(msg)]; [external_error] stands for the errors that come from
    go-plugin, from the transport or from a handler. *)
Inductive error : Type :=
| ErrPluginUnavailable
| ErrMethodNotImplemented
| errors_New (msg : string)
| external_error (code : nat).

(** A Go call returns or panics. *)
Inductive outcome (A : Type) : Type :=
| Returned (a : A)
| Panicked.
Arguments Panicked {A}.

(** ** What the packages import

    The types and operations of [context], of the logger, of
    grafana-plugin-sdk-go's [backend] and of hashicorp's go-plugin, as far as
    the two packages use them.  [World] is everything outside the plugin
    struct: operating-system processes, go-plugin's handles (a
    [*plugin.Client] is a reference into it), transports and response sinks. *)
Class Externals : Type := {
  World : Type;
  context_Context : Type;
  log_Logger : Type;
  (* grafana-plugin-sdk-go/backend: value objects, passed through unchanged *)
  CollectMetricsResult : Type;
  CheckHealthRequest : Type;
  CheckHealthResult : Type;
  CallResourceRequest : Type;
  CallResourceResponseSender : Type;
  SubscribeStreamRequest : Type;
  SubscribeStreamResponse : Type;
  PublishStreamRequest : Type;
  PublishStreamResponse : Type;
  RunStreamRequest : Type;
  StreamPacketSender : Type;
  QueryDataHandler : Type;
  (* hashicorp/go-plugin *)
  plugin_ClientConfig : Type;
  plugin_PluginSets : Type;
  plugin_Client : Type;
  plugin_ClientProtocol : Type;
  plugin_NewClient : plugin_ClientConfig -> World -> plugin_Client * World;
  Client_Client :
    plugin_Client -> World -> (option plugin_ClientProtocol * option error) * World;
  Client_NegotiatedVersion : plugin_Client -> World -> Z;
  Client_Kill : plugin_Client -> World -> World;
  Client_Exited : plugin_Client -> World -> bool
}.

(** ** Package [backend]: the handler interfaces *)
Module backend.
Section Handlers.
Context {E : Externals}.

Record CollectMetricsHandler : Type := {
  CollectMetrics :
    context_Context -> World -> (option CollectMetricsResult * option error) * World
}.

Record CheckHealthHandler : Type := {
  CheckHealth :
    context_Context -> CheckHealthRequest -> World ->
    (option CheckHealthResult * option error) * World
}.

Record CallResourceHandler : Type := {
  CallResource :
    context_Context -> CallResourceRequest -> CallResourceResponseSender -> World ->
    option error * World
}.

Record StreamHandler : Type := {
  SubscribeStream :
    context_Context -> SubscribeStreamRequest -> World ->
    (option SubscribeStreamResponse * option error) * World;
  PublishStream :
    context_Context -> PublishStreamRequest -> World ->
    (option PublishStreamResponse * option error) * World;
  RunStream :
    context_Context -> RunStreamRequest -> StreamPacketSender -> World ->
    option error * World
}.

(** [backend.ServeOpts]: a nil handler is [None]. *)
Record ServeOpts : Type := {
  opts_CheckHealthHandler : option CheckHealthHandler;
  opts_CallResourceHandler : option CallResourceHandler;
  opts_QueryDataHandler : option QueryDataHandler;
  opts_StreamHandler : option StreamHandler
}.
End Handlers.
End backend.

(** ** Capability calls, uniformly

    One constructor per capability method with its arguments, and one per
    shape of result, so that a statement can range over "every capability
    operation". *)
Section Calls.
Context {E : Externals}.

Inductive Call : Type :=
| CallCollectMetrics (ctx : context_Context)
| CallCheckHealth (ctx : context_Context) (req : CheckHealthRequest)
| CallCallResource (ctx : context_Context) (req : CallResourceRequest)
    (sender : CallResourceResponseSender)
| CallSubscribeStream (ctx : context_Context) (req : SubscribeStreamRequest)
| CallPublishStream (ctx : context_Context) (req : PublishStreamRequest)
| CallRunStream (ctx : context_Context) (req : RunStreamRequest)
    (sender : StreamPacketSender).

Inductive Reply : Type :=
| ReplyCollectMetrics (res : option CollectMetricsResult) (err : option error)
| ReplyCheckHealth (res : option CheckHealthResult) (err : option error)
| ReplyCallResource (err : option error)
| ReplySubscribeStream (res : option SubscribeStreamResponse) (err : option error)
| ReplyPublishStream (res : option PublishStreamResponse) (err : option error)
| ReplyRunStream (err : option error).

Definition reply_error (r : Reply) : option error :=
  match r with
  | ReplyCollectMetrics _ e | ReplyCheckHealth _ e | ReplyCallResource e
  | ReplySubscribeStream _ e | ReplyPublishStream _ e | ReplyRunStream e => e
  end.

(** The reply of a call that fails with [e] before reaching any handler:
    a nil result and the error. *)
Definition fails_with (e : error) (c : Call) : Reply :=
  match c with
  | CallCollectMetrics _ => ReplyCollectMetrics None (Some e)
  | CallCheckHealth _ _ => ReplyCheckHealth None (Some e)
  | CallCallResource _ _ _ => ReplyCallResource (Some e)
  | CallSubscribeStream _ _ => ReplySubscribeStream None (Some e)
  | CallPublishStream _ _ => ReplyPublishStream None (Some e)
  | CallRunStream _ _ _ => ReplyRunStream (Some e)
  end.
End Calls.

(** ** Package [grpcplugin] *)
Module grpcplugin.

(** *** The monad of method bodies *)

(** The mutable fields of a [grpcPlugin], and what a method does to the
    mutex and to them, in program order. *)
Inductive Field : Type := F_client | F_pluginClient | F_decommissioned.

Inductive Event : Type :=
| EvLock | EvUnlock | EvRLock | EvRUnlock
| EvRead (f : Field)
| EvWrite (f : Field).

Section Plugin.
Context {E : Externals}.

(** Modelled from the spec: [PluginDescriptor] is declared in a file of
    the package that is not among the sources; these are the fields that
    [grpcPlugin] reads (identity, executable path, supported protocol
    versions, managed flag). *)
Record PluginDescriptor : Type := {
  pluginID : string;
  executablePath : string;
  managed : bool;
  versionedPlugins : plugin_PluginSets
}.

(** [type pluginClient interface]: the four embedded handler interfaces. *)
Record pluginClient : Type := {
  as_CollectMetricsHandler :> backend.CollectMetricsHandler;
  as_CheckHealthHandler :> backend.CheckHealthHandler;
  as_CallResourceHandler :> backend.CallResourceHandler;
  as_StreamHandler :> backend.StreamHandler
}.

(** [type grpcPlugin struct].  A nil pointer or nil interface value is
    [None]; the field [pluginClient] is [pluginClient_], the name being
    taken by its type.  The [mutex] field has no state of its own here:
    a method body runs alone, and its calls on the mutex are recorded in
    the access log. *)
Record grpcPlugin : Type := {
  descriptor : PluginDescriptor;
  clientFactory : World -> plugin_Client * World;
  client : option plugin_Client;
  pluginClient_ : option pluginClient;
  logger : log_Logger;
  decommissioned : bool
}.

Definition set_client (v : option plugin_Client) (p : grpcPlugin) : grpcPlugin :=
  {| descriptor := descriptor p; clientFactory := clientFactory p; client := v;
     pluginClient_ := pluginClient_ p; logger := logger p;
     decommissioned := decommissioned p |}.

Definition set_pluginClient (v : option pluginClient) (p : grpcPlugin) : grpcPlugin :=
  {| descriptor := descriptor p; clientFactory := clientFactory p; client := client p;
     pluginClient_ := v; logger := logger p; decommissioned := decommissioned p |}.

Definition set_decommissioned (v : bool) (p : grpcPlugin) : grpcPlugin :=
  {| descriptor := descriptor p; clientFactory := clientFactory p; client := client p;
     pluginClient_ := pluginClient_ p; logger := logger p; decommissioned := v |}.

Record St : Type := {
  world : World;
  self : grpcPlugin;
  accesses : list Event
}.

Definition M (A : Type) : Type := St -> outcome A * St.

Definition ret {A} (a : A) : M A := fun s => (Returned a, s).

Definition bind {A B} (m : M A) (k : A -> M B) : M B :=
  fun s =>
    match m s with
    | (Returned a, s') => k a s'
    | (Panicked, s') => (Panicked, s')
    end.

(** [defer d] before a body: [d] runs when the body returns or panics. *)
Definition defer {A} (d : M unit) (body : M A) : M A :=
  fun s => let (r, s') := body s in (r, snd (d s')).

Definition record (e : Event) : M unit :=
  fun s => (Returned tt,
            {| world := world s; self := self s; accesses := accesses s ++ [e] |}).

Definition update (f : grpcPlugin -> grpcPlugin) : M unit :=
  fun s => (Returned tt,
            {| world := world s; self := f (self s); accesses := accesses s |}).

(** A field that is never written after construction. *)
Definition field {A} (f : grpcPlugin -> A) : M A :=
  fun s => (Returned (f (self s)), s).

(** A call that changes the world, and one that only reads it. *)
Definition extern {A} (f : World -> A * World) : M A :=
  fun s => let (a, w) := f (world s) in
           (Returned a, {| world := w; self := self s; accesses := accesses s |}).

Definition observe {A} (f : World -> A) : M A :=
  fun s => (Returned (f (world s)), s).

(** Using a pointer or an interface value: nil panics. *)
Definition deref {A} (v : option A) : M A :=
  fun s => match v with Some a => (Returned a, s) | None => (Panicked, s) end.
End Plugin.

Declare Scope go_scope.
Delimit Scope go_scope with go.
Notation "x <- m ;; k" := (bind m (fun x => k))
  (at level 61, m at next level, right associativity) : go_scope.
Notation "' pat <- m ;; k" := (bind m (fun x => match x with pat => k end))
  (at level 61, pat pattern, m at next level, right associativity) : go_scope.
Notation "m ;; k" := (bind m (fun _ => k))
  (at level 61, right associativity) : go_scope.
Local Open Scope go_scope.

Section Fields.
Context {E : Externals}.

Definition mutex_Lock : M unit := record EvLock.
Definition mutex_Unlock : M unit := record EvUnlock.
Definition mutex_RLock : M unit := record EvRLock.
Definition mutex_RUnlock : M unit := record EvRUnlock.

Definition load_client : M (option plugin_Client) :=
  record (EvRead F_client) ;; field client.
Definition store_client (v : option plugin_Client) : M unit :=
  record (EvWrite F_client) ;; update (set_client v).
Definition load_pluginClient : M (option pluginClient) :=
  record (EvRead F_pluginClient) ;; field pluginClient_.
Definition store_pluginClient (v : option pluginClient) : M unit :=
  record (EvWrite F_pluginClient) ;; update (set_pluginClient v).
Definition load_decommissioned : M bool :=
  record (EvRead F_decommissioned) ;; field decommissioned.
Definition store_decommissioned (v : bool) : M unit :=
  record (EvWrite F_decommissioned) ;; update (set_decommissioned v).
End Fields.

(** The functions of the package that [grpcPlugin] calls and that are declared
    in files not among the sources: the constructors of the two client
    versions and of go-plugin's client configuration.  They are parameters. *)
Class ClientCode {E : Externals} : Type := {
  newClientConfig :
    string -> list string -> log_Logger -> plugin_PluginSets -> plugin_ClientConfig;
  newClientV1 :
    PluginDescriptor -> log_Logger -> option plugin_ClientProtocol -> World ->
    (option pluginClient * option error) * World;
  newClientV2 :
    PluginDescriptor -> log_Logger -> option plugin_ClientProtocol -> World ->
    (option pluginClient * option error) * World
}.

Section Methods.
Context {E : Externals} {C : ClientCode}.

(** [newPlugin]: the factory, applied to its arguments. *)
Definition newPlugin (d : PluginDescriptor) (pluginID : string) (l : log_Logger)
    (env : list string) : grpcPlugin * option error :=
  ({| descriptor := d;
      logger := l;
      clientFactory :=
        plugin_NewClient (newClientConfig (executablePath d) env l (versionedPlugins d));
      client := None;
      pluginClient_ := None;
      decommissioned := false |}, None).

Definition PluginID : M string := d <- field descriptor ;; ret (pluginID d).

Definition Logger : M log_Logger := field logger.

Definition Start (ctx : context_Context) : M (option error) :=
  mutex_Lock ;;
  defer mutex_Unlock (
    factory <- field clientFactory ;;
    fresh <- extern factory ;;
    store_client (Some fresh) ;;
    c <- load_client ;; c <- deref c ;;
    '(rpcClient, err) <- extern (Client_Client c) ;;
    match err with
    | Some e => ret (Some e)
    | None =>
        c <- load_client ;; c <- deref c ;;
        version <- observe (Client_NegotiatedVersion c) ;;
        err <- (if (version >? 1)%Z then
                  d <- field descriptor ;; l <- field logger ;;
                  '(pc, err) <- extern (newClientV2 d l rpcClient) ;;
                  store_pluginClient pc ;;
                  ret err
                else
                  d <- field descriptor ;; l <- field logger ;;
                  '(pc, err) <- extern (newClientV1 d l rpcClient) ;;
                  store_pluginClient pc ;;
                  ret err) ;;
        match err with
        | Some e => ret (Some e)
        | None =>
            pc <- load_pluginClient ;;
            match pc with
            | None => ret (Some (errors_New "no compatible plugin implementation found"))
            | Some _ => ret None
            end
        end
    end).

Definition Stop (ctx : context_Context) : M (option error) :=
  mutex_Lock ;;
  defer mutex_Unlock (
    c <- load_client ;;
    match c with
    | Some _ =>
        c <- load_client ;; c <- deref c ;;
        extern (fun w => (tt, Client_Kill c w))
    | None => ret tt
    end ;;
    ret None).

Definition IsManaged : M bool := d <- field descriptor ;; ret (managed d).

Definition Exited : M bool :=
  mutex_RLock ;;
  defer mutex_RUnlock (
    c <- load_client ;;
    match c with
    | Some _ => c <- load_client ;; c <- deref c ;; observe (Client_Exited c)
    | None => ret true
    end).

Definition Decommission : M (option error) :=
  mutex_RLock ;;
  defer mutex_RUnlock (
    store_decommissioned true ;;
    ret None).

Definition IsDecommissioned : M bool := load_decommissioned.

(** The condition [p.client == nil || p.client.Exited() || p.pluginClient == nil],
    evaluated left to right with Go's short circuit. *)
Definition no_live_client : M bool :=
  c <- load_client ;;
  match c with
  | None => ret true
  | Some _ =>
      c <- load_client ;; c <- deref c ;;
      exited <- observe (Client_Exited c) ;;
      if exited then ret true
      else
        pc <- load_pluginClient ;;
        match pc with None => ret true | Some _ => ret false end
  end.

Definition getPluginClient : M (option pluginClient * bool) :=
  mutex_RLock ;;
  unavailable <- no_live_client ;;
  if unavailable then
    mutex_RUnlock ;;
    ret (None, false)
  else
    pluginClient <- load_pluginClient ;;
    mutex_RUnlock ;;
    ret (pluginClient, true).

Definition CollectMetrics (ctx : context_Context)
    : M (option CollectMetricsResult * option error) :=
  '(pluginClient, ok) <- getPluginClient ;;
  if negb ok then ret (None, Some ErrPluginUnavailable)
  else
    pc <- deref pluginClient ;;
    extern (backend.CollectMetrics pc ctx).

Definition CheckHealth (ctx : context_Context) (req : CheckHealthRequest)
    : M (option CheckHealthResult * option error) :=
  '(pluginClient, ok) <- getPluginClient ;;
  if negb ok then ret (None, Some ErrPluginUnavailable)
  else
    pc <- deref pluginClient ;;
    extern (backend.CheckHealth pc ctx req).

Definition CallResource (ctx : context_Context) (req : CallResourceRequest)
    (sender : CallResourceResponseSender) : M (option error) :=
  '(pluginClient, ok) <- getPluginClient ;;
  if negb ok then ret (Some ErrPluginUnavailable)
  else
    pc <- deref pluginClient ;;
    extern (backend.CallResource pc ctx req sender).

Definition SubscribeStream (ctx : context_Context) (request : SubscribeStreamRequest)
    : M (option SubscribeStreamResponse * option error) :=
  '(pluginClient, ok) <- getPluginClient ;;
  if negb ok then ret (None, Some ErrPluginUnavailable)
  else
    pc <- deref pluginClient ;;
    extern (backend.SubscribeStream pc ctx request).

Definition PublishStream (ctx : context_Context) (request : PublishStreamRequest)
    : M (option PublishStreamResponse * option error) :=
  '(pluginClient, ok) <- getPluginClient ;;
  if negb ok then ret (None, Some ErrPluginUnavailable)
  else
    pc <- deref pluginClient ;;
    extern (backend.PublishStream pc ctx request).

Definition RunStream (ctx : context_Context) (req : RunStreamRequest)
    (sender : StreamPacketSender) : M (option error) :=
  '(pluginClient, ok) <- getPluginClient ;;
  if negb ok then ret (Some ErrPluginUnavailable)
  else
    pc <- deref pluginClient ;;
    extern (backend.RunStream pc ctx req sender).

(** The constructor that [Start] chooses for a negotiated version, and what
    [Start] returns once that constructor has returned: the two halves of the
    body of [Start], named for the statements about it. *)
Definition chosen_constructor (version : Z) :=
  if (version >? 1)%Z then newClientV2 else newClientV1.

Definition Start_result (pc : option pluginClient) (err : option error) : option error :=
  match err, pc with
  | Some e, _ => Some e
  | None, None => Some (errors_New "no compatible plugin implementation found")
  | None, Some _ => None
  end.

(** One entry point for the six capability methods. *)
Definition invoke (c : Call) : M Reply :=
  match c with
  | CallCollectMetrics ctx =>
      '(res, err) <- CollectMetrics ctx ;; ret (ReplyCollectMetrics res err)
  | CallCheckHealth ctx req =>
      '(res, err) <- CheckHealth ctx req ;; ret (ReplyCheckHealth res err)
  | CallCallResource ctx req sender =>
      err <- CallResource ctx req sender ;; ret (ReplyCallResource err)
  | CallSubscribeStream ctx req =>
      '(res, err) <- SubscribeStream ctx req ;; ret (ReplySubscribeStream res err)
  | CallPublishStream ctx req =>
      '(res, err) <- PublishStream ctx req ;; ret (ReplyPublishStream res err)
  | CallRunStream ctx req sender =>
      err <- RunStream ctx req sender ;; ret (ReplyRunStream err)
  end.

(** What a negotiated client itself answers to a call. *)
Definition delegate (pc : pluginClient) (c : Call) (w : World) : Reply * World :=
  match c with
  | CallCollectMetrics ctx =>
      let '((res, err), w') := backend.CollectMetrics pc ctx w in
      (ReplyCollectMetrics res err, w')
  | CallCheckHealth ctx req =>
      let '((res, err), w') := backend.CheckHealth pc ctx req w in
      (ReplyCheckHealth res err, w')
  | CallCallResource ctx req sender =>
      let '(err, w') := backend.CallResource pc ctx req sender w in
      (ReplyCallResource err, w')
  | CallSubscribeStream ctx req =>
      let '((res, err), w') := backend.SubscribeStream pc ctx req w in
      (ReplySubscribeStream res err, w')
  | CallPublishStream ctx req =>
      let '((res, err), w') := backend.PublishStream pc ctx req w in
      (ReplyPublishStream res err, w')
  | CallRunStream ctx req sender =>
      let '(err, w') := backend.RunStream pc ctx req sender w in
      (ReplyRunStream err, w')
  end.

(** Running a method on the struct [p] in the world [w]: what it returns,
    the struct and the world it leaves, and the accesses it made. *)
Definition start_state (p : grpcPlugin) (w : World) : St :=
  {| world := w; self := p; accesses := [] |}.

Definition exec {A} (m : M A) (p : grpcPlugin) (w : World)
    : outcome A * grpcPlugin * World :=
  let (r, s) := m (start_state p w) in (r, self s, world s).

Definition trace {A} (m : M A) (p : grpcPlugin) (w : World) : list Event :=
  accesses (snd (m (start_state p w))).

(** The client that a capability method would use in this state: present
    when the handle exists, has not exited, and a client was negotiated. *)
Definition live_client (p : grpcPlugin) (w : World) : option pluginClient :=
  match client p with
  | None => None
  | Some c => if Client_Exited c w then None else pluginClient_ p
  end.
End Methods.

(** *** The locking discipline, as a check on an access log

    A write of a mutable field needs the exclusive lock; a read needs the
    shared or the exclusive lock; locks are released in the mode they were
    taken, and none is held at the end. *)
Inductive Held : Type := Unlocked | Shared | Exclusive.

Definition step_lock (h : Held) (e : Event) : option Held :=
  match e, h with
  | EvLock, Unlocked => Some Exclusive
  | EvUnlock, Exclusive => Some Unlocked
  | EvRLock, Unlocked => Some Shared
  | EvRUnlock, Shared => Some Unlocked
  | EvRead _, (Shared | Exclusive) => Some h
  | EvWrite _, Exclusive => Some h
  | _, _ => None
  end.

Fixpoint lock_run (h : Held) (es : list Event) : option Held :=
  match es with
  | [] => Some h
  | e :: es' =>
      match step_lock h e with
      | Some h' => lock_run h' es'
      | None => None
      end
  end.

Definition race_free (es : list Event) : bool :=
  match lock_run Unlocked es with
  | Some Unlocked => true
  | _ => false
  end.

(** The mode of the first lock a log takes, if it takes one before any
    access to a field. *)
Definition takes (es : list Event) : Held :=
  match es with
  | EvLock :: _ => Exclusive
  | EvRLock :: _ => Shared
  | _ => Unlocked
  end.

End grpcplugin.

(** ** Package [coreplugin] *)
Module coreplugin.

Section Core.
Context {E : Externals}.

(** [type corePlugin struct]: the embedded handler interfaces are fields
    that may be nil. *)
Record corePlugin : Type := {
  pluginID : string;
  logger : log_Logger;
  CheckHealthHandler : option backend.CheckHealthHandler;
  CallResourceHandler : option backend.CallResourceHandler;
  QueryDataHandler_ : option QueryDataHandler;
  StreamHandler : option backend.StreamHandler
}.

(** A method of [*corePlugin] never writes the struct: it is a function of
    the world that returns or panics. *)
Definition W (A : Type) : Type := World -> outcome A * World.

Definition done {A} (a : A) : W A := fun w => (Returned a, w).

Definition through {A} (f : World -> A * World) : W A :=
  fun w => let (a, w') := f w in (Returned a, w').

(** [New]: the factory, applied to its arguments. *)
Definition New (opts : backend.ServeOpts) (id : string) (l : log_Logger)
    (env : list string) : corePlugin * option error :=
  ({| pluginID := id;
      logger := l;
      CheckHealthHandler := backend.opts_CheckHealthHandler opts;
      CallResourceHandler := backend.opts_CallResourceHandler opts;
      QueryDataHandler_ := backend.opts_QueryDataHandler opts;
      StreamHandler := backend.opts_StreamHandler opts |}, None).

Definition PluginID (cp : corePlugin) : W string := done (pluginID cp).

Definition Logger (cp : corePlugin) : W log_Logger := done (logger cp).

Definition Start (cp : corePlugin) (ctx : context_Context) : W (option error) :=
  done None.

Definition Stop (cp : corePlugin) (ctx : context_Context) : W (option error) :=
  done None.

Definition IsManaged (cp : corePlugin) : W bool := done true.

Definition Exited (cp : corePlugin) : W bool := done false.

Definition Decommission (cp : corePlugin) : W (option error) := done None.

Definition IsDecommissioned (cp : corePlugin) : W bool := done false.

Definition CollectMetrics (cp : corePlugin) (ctx : context_Context)
    : W (option CollectMetricsResult * option error) :=
  done (None, Some ErrMethodNotImplemented).

Definition CheckHealth (cp : corePlugin) (ctx : context_Context)
    (req : CheckHealthRequest) : W (option CheckHealthResult * option error) :=
  match CheckHealthHandler cp with
  | Some h => through (backend.CheckHealth h ctx req)
  | None => done (None, Some ErrMethodNotImplemented)
  end.

Definition CallResource (cp : corePlugin) (ctx : context_Context)
    (req : CallResourceRequest) (sender : CallResourceResponseSender)
    : W (option error) :=
  match CallResourceHandler cp with
  | Some h => through (backend.CallResource h ctx req sender)
  | None => done (Some ErrMethodNotImplemented)
  end.

Definition SubscribeStream (cp : corePlugin) (ctx : context_Context)
    (req : SubscribeStreamRequest) : W (option SubscribeStreamResponse * option error) :=
  match StreamHandler cp with
  | Some h => through (backend.SubscribeStream h ctx req)
  | None => done (None, Some ErrMethodNotImplemented)
  end.

Definition PublishStream (cp : corePlugin) (ctx : context_Context)
    (req : PublishStreamRequest) : W (option PublishStreamResponse * option error) :=
  match StreamHandler cp with
  | Some h => through (backend.PublishStream h ctx req)
  | None => done (None, Some ErrMethodNotImplemented)
  end.

Definition RunStream (cp : corePlugin) (ctx : context_Context)
    (req : RunStreamRequest) (sender : StreamPacketSender) : W (option error) :=
  match StreamHandler cp with
  | Some h => through (backend.RunStream h ctx req sender)
  | None => done (Some ErrMethodNotImplemented)
  end.

Definition reply {A} (k : A -> Reply) (m : W A) : W Reply :=
  fun w => match m w with
           | (Returned a, w') => (Returned (k a), w')
           | (Panicked, w') => (Panicked, w')
           end.

(** One entry point for the six capability methods. *)
Definition invoke (cp : corePlugin) (c : Call) : W Reply :=
  match c with
  | CallCollectMetrics ctx =>
      reply (fun r => ReplyCollectMetrics (fst r) (snd r)) (CollectMetrics cp ctx)
  | CallCheckHealth ctx req =>
      reply (fun r => ReplyCheckHealth (fst r) (snd r)) (CheckHealth cp ctx req)
  | CallCallResource ctx req sender =>
      reply ReplyCallResource (CallResource cp ctx req sender)
  | CallSubscribeStream ctx req =>
      reply (fun r => ReplySubscribeStream (fst r) (snd r)) (SubscribeStream cp ctx req)
  | CallPublishStream ctx req =>
      reply (fun r => ReplyPublishStream (fst r) (snd r)) (PublishStream cp ctx req)
  | CallRunStream ctx req sender =>
      reply ReplyRunStream (RunStream cp ctx req sender)
  end.

(** The handler of the struct that a call is for, run on the call; [None]
    when the struct has no handler for it.  [CollectMetrics] has none: the
    struct embeds no [CollectMetricsHandler]. *)
Definition handler_for (cp : corePlugin) (c : Call) : option (World -> Reply * World) :=
  match c with
  | CallCollectMetrics _ => None
  | CallCheckHealth ctx req =>
      option_map (fun h w => let '((res, err), w') := backend.CheckHealth h ctx req w in
                             (ReplyCheckHealth res err, w')) (CheckHealthHandler cp)
  | CallCallResource ctx req sender =>
      option_map (fun h w => let '(err, w') := backend.CallResource h ctx req sender w in
                             (ReplyCallResource err, w')) (CallResourceHandler cp)
  | CallSubscribeStream ctx req =>
      option_map (fun h w => let '((res, err), w') := backend.SubscribeStream h ctx req w in
                             (ReplySubscribeStream res err, w')) (StreamHandler cp)
  | CallPublishStream ctx req =>
      option_map (fun h w => let '((res, err), w') := backend.PublishStream h ctx req w in
                             (ReplyPublishStream res err, w')) (StreamHandler cp)
  | CallRunStream ctx req sender =>
      option_map (fun h w => let '(err, w') := backend.RunStream h ctx req sender w in
                             (ReplyRunStream err, w')) (StreamHandler cp)
  end.
End Core.
End coreplugin.


(** ** The life of one [grpcPlugin]

    The methods of a [grpcPlugin], called one after the other on the same
    struct, with whatever happens outside the struct in between (a subprocess
    exits, the operating system changes).  A call that panics ends the
    sequence. *)
Module lifetime.
Import grpcplugin.
Local Open Scope go_scope.

Section Ops.
Context {E : Externals} {C : ClientCode}.

Inductive Op : Type :=
| OpPluginID
| OpLogger
| OpIsManaged
| OpStart (ctx : context_Context)
| OpStop (ctx : context_Context)
| OpExited
| OpDecommission
| OpIsDecommissioned
| OpCall (c : Call)
| OpOutside (f : World -> World).

Definition is_Start (o : Op) : bool :=
  match o with OpStart _ => true | _ => false end.

Definition is_Decommission (o : Op) : bool :=
  match o with OpDecommission => true | _ => false end.

Definition has_handle (p : grpcPlugin) : bool :=
  match client p with Some _ => true | None => false end.

Definition returned {A} (r : outcome A) : bool :=
  match r with Returned _ => true | Panicked => false end.

(** A method call, keeping of its result only whether it returned. *)
Definition method {A} (m : M A) (p : grpcPlugin) (w : World)
    : bool * grpcPlugin * World :=
  let '(r, p', w') := exec m p w in (returned r, p', w').

Definition step (o : Op) (p : grpcPlugin) (w : World) : bool * grpcPlugin * World :=
  match o with
  | OpPluginID => method PluginID p w
  | OpLogger => method Logger p w
  | OpIsManaged => method IsManaged p w
  | OpStart ctx => method (Start ctx) p w
  | OpStop ctx => method (Stop ctx) p w
  | OpExited => method Exited p w
  | OpDecommission => method Decommission p w
  | OpIsDecommissioned => method IsDecommissioned p w
  | OpCall c => method (invoke c) p w
  | OpOutside f => (true, p, f w)
  end.

Fixpoint run (ops : list Op) (p : grpcPlugin) (w : World) : bool * grpcPlugin * World :=
  match ops with
  | [] => (true, p, w)
  | o :: rest =>
      let '(ok, p', w') := step o p w in
      if ok then run rest p' w' else (false, p', w')
  end.
End Ops.
End lifetime.

(** ** A plugin instance

    A plugin instance is a core plugin or a gRPC plugin: the two types that
    the factories of the two packages return as [backendplugin.Plugin]. *)
Module backendplugin.
Section Instance.
Context {E : Externals}.

Inductive Plugin : Type :=
| Core (cp : coreplugin.corePlugin)
| Grpc (p : grpcplugin.grpcPlugin).

(** A capability call on a plugin instance: what it returns, and the
    instance and the world it leaves. *)
Definition invoke (P : Plugin) (c : Call) (w : World) : outcome Reply * Plugin * World :=
  match P with
  | Core cp => let (r, w') := coreplugin.invoke cp c w in (r, Core cp, w')
  | Grpc p =>
      let '(r, p', w') := grpcplugin.exec (grpcplugin.invoke c) p w in (r, Grpc p', w')
  end.



End Instance.
End backendplugin.

(** ** Package [plugins]: the data source plugin

    [DataSourcePlugin] is a caller of package [grpcplugin]: it hands its two
    start callbacks to the plugin factory, and routes data queries to the
    client a callback has stored. *)
Module plugins.

(** What the file imports or uses and does not declare: the embedded
    [FrontendPluginBase] and the fields [Id] and [Type] read from it, the
    types of the query envelope, the two endpoint wrappers of the package with
    their [Query] method, and [strconv.Quote], which is what the verb [%q] of
    [fmt] applies to a string. *)
Class Imports {E : Externals} : Type := {
  FrontendPluginBase : Type;
  base_Id : FrontendPluginBase -> string;
  base_Type : FrontendPluginBase -> string;
  AppPluginRoute : Type;
  models_DataSource : Type;
  DataQuery_ : Type;
  DataResponse : Type;
  DataResponse_zero : DataResponse;
  DataPlugin_ : Type;
  RendererPluginV2 : Type;
  DatasourcePluginV1 : Type;
  RendererPluginV1 : Type;
  strconv_Quote : string -> string;
  DatasourcePluginWrapperV2 : Type;
  newDataSourcePluginWrapperV2 :
    option log_Logger -> string -> string -> option DataPlugin_ ->
    DatasourcePluginWrapperV2;
  WrapperV2_Query :
    DatasourcePluginWrapperV2 -> context_Context -> models_DataSource -> DataQuery_ ->
    World -> (DataResponse * option error) * World;
  DatasourcePluginWrapper : Type;
  newDataSourcePluginWrapper :
    option log_Logger -> option DatasourcePluginV1 -> DatasourcePluginWrapper;
  Wrapper_Query :
    DatasourcePluginWrapper -> context_Context -> models_DataSource -> DataQuery_ ->
    World -> (DataResponse * option error) * World
}.

Section DataSource.
Context {E : Externals} {I : Imports}.

(** [grpcplugin.Client] and [grpcplugin.LegacyClient], declared in a file of
    package [grpcplugin] that is not among the sources: the fields are those
    that the callbacks of [DataSourcePlugin] and [RendererPlugin] read. *)
Record Client : Type := {
  DataPlugin : option DataPlugin_;
  RendererPlugin : option RendererPluginV2
}.

Record LegacyClient : Type := {
  DatasourcePlugin : option DatasourcePluginV1;
  LegacyRendererPlugin : option RendererPluginV1
}.

(** [type DataSourcePlugin struct]; a nil pointer, interface or map is
    [None]. *)
Record DataSourcePlugin : Type := {
  base : FrontendPluginBase;
  Annotations : bool;
  Metrics : bool;
  Alerting : bool;
  Explore : bool;
  Table : bool;
  Logs : bool;
  Tracing : bool;
  QueryOptions : option (list (string * bool));
  BuiltIn : bool;
  Mixed : bool;
  Routes : list (option AppPluginRoute);
  Streaming : bool;
  Backend : bool;
  Executable : string;
  SDK : bool;
  client : option Client;
  legacyClient : option LegacyClient;
  logger : option log_Logger
}.

Definition Id (p : DataSourcePlugin) : string := base_Id (base p).
Definition Type_ (p : DataSourcePlugin) : string := base_Type (base p).

(** The assignments of the two callbacks. *)
Definition with_legacyClient (c : option LegacyClient) (l : option log_Logger)
    (p : DataSourcePlugin) : DataSourcePlugin :=
  {| base := base p; Annotations := Annotations p; Metrics := Metrics p;
     Alerting := Alerting p; Explore := Explore p; Table := Table p; Logs := Logs p;
     Tracing := Tracing p; QueryOptions := QueryOptions p; BuiltIn := BuiltIn p;
     Mixed := Mixed p; Routes := Routes p; Streaming := Streaming p;
     Backend := Backend p; Executable := Executable p; SDK := SDK p;
     client := client p; legacyClient := c; logger := l |}.

Definition with_client (c : option Client) (l : option log_Logger)
    (p : DataSourcePlugin) : DataSourcePlugin :=
  {| base := base p; Annotations := Annotations p; Metrics := Metrics p;
     Alerting := Alerting p; Explore := Explore p; Table := Table p; Logs := Logs p;
     Tracing := Tracing p; QueryOptions := QueryOptions p; BuiltIn := BuiltIn p;
     Mixed := Mixed p; Routes := Routes p; Streaming := Streaming p;
     Backend := Backend p; Executable := Executable p; SDK := SDK p;
     client := c; legacyClient := legacyClient p; logger := l |}.

Definition onLegacyPluginStart (p : DataSourcePlugin) (pluginID : string)
    (c : option LegacyClient) (l : option log_Logger)
    : outcome (option error) * DataSourcePlugin :=
  (Returned None, with_legacyClient c l p).

Definition CanHandleDataQueries (p : DataSourcePlugin) : bool :=
  match client p with
  | Some _ => true
  | None => match legacyClient p with Some _ => true | None => false end
  end.

(** [client.DataPlugin] on a nil [client] panics. *)
Definition onPluginStart (p : DataSourcePlugin) (pluginID : string)
    (c : option Client) (l : option log_Logger)
    : outcome (option error) * DataSourcePlugin :=
  match c with
  | None => (Panicked, p)
  | Some c' =>
      match DataPlugin c' with
      | None => (Returned None, p)
      | Some _ => (Returned None, with_client c l p)
      end
  end.

(** [fmt.Errorf("plugin %q can't handle data queries", p.Id)]. *)
Definition cannot_handle (p : DataSourcePlugin) : error :=
  errors_New ("plugin " ++ strconv_Quote (Id p) ++ " can't handle data queries").

Definition DataQuery (p : DataSourcePlugin) (ctx : context_Context)
    (dsInfo : models_DataSource) (query : DataQuery_) (w : World)
    : outcome (DataResponse * option error) * World :=
  if negb (CanHandleDataQueries p) then
    (Returned (DataResponse_zero, Some (cannot_handle p)), w)
  else
    match client p with
    | Some c =>
        let endpoint :=
          newDataSourcePluginWrapperV2 (logger p) (Id p) (Type_ p) (DataPlugin c) in
        let (r, w') := WrapperV2_Query endpoint ctx dsInfo query w in
        (Returned r, w')
    | None =>
        match legacyClient p with
        | None => (Panicked, w)
        | Some lc =>
            let endpoint := newDataSourcePluginWrapper (logger p) (DatasourcePlugin lc) in
            let (r, w') := Wrapper_Query endpoint ctx dsInfo query w in
            (Returned r, w')
        end
    end.

(** The start callbacks that reach a data source plugin over time, each with
    the client and the logger it is called with. *)
Inductive Started : Type :=
| LegacyStarted (c : option LegacyClient) (l : option log_Logger)
| PluginStarted (c : option Client) (l : option log_Logger).

Definition notify (ev : Started) (p : DataSourcePlugin)
    : outcome (option error) * DataSourcePlugin :=
  match ev with
  | LegacyStarted c l => onLegacyPluginStart p (Id p) c l
  | PluginStarted c l => onPluginStart p (Id p) c l
  end.

Fixpoint notify_all (evs : list Started) (p : DataSourcePlugin)
    : outcome (option error) * DataSourcePlugin :=
  match evs with
  | [] => (Returned None, p)
  | ev :: rest =>
      match notify ev p with
      | (Returned None, p') => notify_all rest p'
      | stopped => stopped
      end
  end.

(** The client of the last [onPluginStart] of the sequence that stored one,
    and the client of its last [onLegacyPluginStart]. *)
Fixpoint last_data_client (evs : list Started) (before : option Client) : option Client :=
  match evs with
  | [] => before
  | PluginStarted (Some c) _ :: rest =>
      last_data_client rest (match DataPlugin c with Some _ => Some c | None => before end)
  | _ :: rest => last_data_client rest before
  end.

Fixpoint last_legacy_client (evs : list Started) (before : option LegacyClient)
    : option LegacyClient :=
  match evs with
  | [] => before
  | LegacyStarted c _ :: rest => last_legacy_client rest c
  | _ :: rest => last_legacy_client rest before
  end.

(** A callback sequence in which no [onPluginStart] is passed a nil client. *)
Definition well_called (ev : Started) : bool :=
  match ev with PluginStarted None _ => false | _ => true end.
End DataSource.
End plugins.

(** ** A small world to run the code in

    An instance of the imports with concretely computable behaviour, in
    which the claims are run on explicit inputs.  A handle is an index into
    the table of go-plugin handles; the next entries of [spawns] say what
    the operating system does the next times a handle starts its subprocess:
    [Some v] is a subprocess that comes up and negotiates version [v], [None]
    one that cannot be started. *)
Module Sim.

Inductive Handle : Type :=
| NotStarted
| Running (version : Z)
| Killed
| Failed.

Record SimWorld : Type := {
  handles : list Handle;
  spawns : list (option Z)
}.

Fixpoint replace {A} (i : nat) (x : A) (l : list A) : list A :=
  match l, i with
  | [], _ => []
  | _ :: t, O => x :: t
  | y :: t, S j => y :: replace j x t
  end.

Definition set_handle (c : nat) (h : Handle) (w : SimWorld) : SimWorld :=
  {| handles := replace c h (handles w); spawns := spawns w |}.

Definition next_spawn (w : SimWorld) : option Z * SimWorld :=
  match spawns w with
  | [] => (None, w)
  | s :: rest => (s, {| handles := handles w; spawns := rest |})
  end.

(** [plugin.NewClient] allocates a handle; nothing is started yet. *)
Definition NewClient (cfg : unit) (w : SimWorld) : nat * SimWorld :=
  (length (handles w), {| handles := handles w ++ [NotStarted]; spawns := spawns w |}).

(** [Client] on a handle: starts the subprocess on first use. *)
Definition Client (c : nat) (w : SimWorld) : (option nat * option error) * SimWorld :=
  match nth_error (handles w) c with
  | Some NotStarted =>
      match next_spawn w with
      | (Some v, w') => ((Some c, None), set_handle c (Running v) w')
      | (None, w') => ((None, Some (external_error 1)), set_handle c Failed w')
      end
  | Some (Running _) => ((Some c, None), w)
  | _ => ((None, Some (external_error 2)), w)
  end.

Definition NegotiatedVersion (c : nat) (w : SimWorld) : Z :=
  match nth_error (handles w) c with
  | Some (Running v) => v
  | _ => 0%Z
  end.

(** [Kill] on a handle ends the subprocess; there is nothing to do when no
    subprocess is running, as after an earlier [Kill]. *)
Definition Kill (c : nat) (w : SimWorld) : SimWorld :=
  match nth_error (handles w) c with
  | Some (Running _) => set_handle c Killed w
  | _ => w
  end.

(** [Exited] on a handle: set once a started subprocess has ended. *)
Definition HasExited (c : nat) (w : SimWorld) : bool :=
  match nth_error (handles w) c with
  | Some Killed => true
  | _ => false
  end.

(** Results carry the index of the subprocess that answered. *)
#[export] Instance externals : Externals := {|
  World := SimWorld;
  context_Context := unit;
  log_Logger := unit;
  CollectMetricsResult := nat;
  CheckHealthRequest := unit;
  CheckHealthResult := nat;
  CallResourceRequest := unit;
  CallResourceResponseSender := unit;
  SubscribeStreamRequest := unit;
  SubscribeStreamResponse := nat;
  PublishStreamRequest := unit;
  PublishStreamResponse := nat;
  RunStreamRequest := unit;
  StreamPacketSender := unit;
  QueryDataHandler := unit;
  plugin_ClientConfig := unit;
  plugin_PluginSets := unit;
  plugin_Client := nat;
  plugin_ClientProtocol := nat;
  plugin_NewClient := NewClient;
  Client_Client := Client;
  Client_NegotiatedVersion := NegotiatedVersion;
  Client_Kill := Kill;
  Client_Exited := HasExited
|}.

(** An RPC to the subprocess of handle [c]: answered with [c] while the
    subprocess runs, a transport error afterwards. *)
Definition rpc (c : nat) (w : SimWorld) : (option nat * option error) * SimWorld :=
  match nth_error (handles w) c with
  | Some (Running _) => ((Some c, None), w)
  | _ => ((None, Some (external_error 3)), w)
  end.

Definition rpc_ (c : nat) (w : SimWorld) : option error * SimWorld :=
  (snd (fst (rpc c w)), w).

Definition not_implemented {A} (w : SimWorld) : (option A * option error) * SimWorld :=
  ((None, Some ErrMethodNotImplemented), w).

(** A version-2 client on the connection of handle [c]. *)
Definition clientV2 (c : nat) : grpcplugin.pluginClient :=
  {| grpcplugin.as_CollectMetricsHandler := {| backend.CollectMetrics := fun _ => rpc c |};
     grpcplugin.as_CheckHealthHandler := {| backend.CheckHealth := fun _ _ => rpc c |};
     grpcplugin.as_CallResourceHandler := {| backend.CallResource := fun _ _ _ => rpc_ c |};
     grpcplugin.as_StreamHandler :=
       {| backend.SubscribeStream := fun _ _ => rpc c;
          backend.PublishStream := fun _ _ => rpc c;
          backend.RunStream := fun _ _ _ => rpc_ c |} |}.

(** A version-1 client as the spec describes the legacy client: it has none
    of these capabilities, and answers each of the calls with
    [ErrMethodNotImplemented]. *)
Definition clientV1 (c : nat) : grpcplugin.pluginClient :=
  {| grpcplugin.as_CollectMetricsHandler :=
       {| backend.CollectMetrics := fun _ => not_implemented |};
     grpcplugin.as_CheckHealthHandler :=
       {| backend.CheckHealth := fun _ _ => not_implemented |};
     grpcplugin.as_CallResourceHandler :=
       {| backend.CallResource := fun _ _ _ w => (Some ErrMethodNotImplemented, w) |};
     grpcplugin.as_StreamHandler :=
       {| backend.SubscribeStream := fun _ _ => not_implemented;
          backend.PublishStream := fun _ _ => not_implemented;
          backend.RunStream := fun _ _ _ w => (Some ErrMethodNotImplemented, w) |} |}.

(** What a client constructor does: build the client, fail with an error,
    or return neither a client nor an error. *)
Inductive Construction : Type :=
| Builds
| FailsWith (e : error)
| BuildsNothing.

Definition construct (k : Construction) (mk : nat -> grpcplugin.pluginClient)
    (d : grpcplugin.PluginDescriptor) (l : unit) (rpcClient : option nat) (w : SimWorld)
    : (option grpcplugin.pluginClient * option error) * SimWorld :=
  match k, rpcClient with
  | Builds, Some c => ((Some (mk c), None), w)
  | Builds, None => ((None, Some (external_error 4)), w)
  | FailsWith e, _ => ((None, Some e), w)
  | BuildsNothing, _ => ((None, None), w)
  end.

Definition code (k1 k2 : Construction) : grpcplugin.ClientCode :=
  {| grpcplugin.newClientConfig := fun _ _ _ _ => tt;
     grpcplugin.newClientV1 := construct k1 clientV1;
     grpcplugin.newClientV2 := construct k2 clientV2 |}.

Definition descriptor : grpcplugin.PluginDescriptor :=
  {| grpcplugin.pluginID := "test-datasource";
     grpcplugin.executablePath := "/plugins/test-datasource/gpx_test";
     grpcplugin.managed := true;
     grpcplugin.versionedPlugins := tt |}.

(** A plugin as [newPlugin] makes it, and worlds with no handle yet. *)
Definition plugin (k1 k2 : Construction) : grpcplugin.grpcPlugin :=
  fst (@grpcplugin.newPlugin _ (code k1 k2) descriptor "test-datasource" tt []).

Definition booting (s : list (option Z)) : SimWorld :=
  {| handles := []; spawns := s |}.


Definition core (health : option backend.CheckHealthHandler) : coreplugin.corePlugin :=
  fst (coreplugin.New
         {| backend.opts_CheckHealthHandler := health;
            backend.opts_CallResourceHandler := None;
            backend.opts_QueryDataHandler := None;
            backend.opts_StreamHandler := None |} "testdata" tt []).

(** A health handler that passes on an unavailability of its upstream. *)
Definition upstream_down : backend.CheckHealthHandler :=
  {| backend.CheckHealth := fun _ _ w => ((None, Some ErrPluginUnavailable), w) |}.

(** The plugin and the world after one [Start] that succeeds with version 2;
    the operating system would let a second subprocess come up as well. *)
Definition started : grpcplugin.grpcPlugin * SimWorld :=
  Eval vm_compute in
  let '(_, p, w) :=
    grpcplugin.exec (grpcplugin.Start (C := code Builds Builds) tt)
      (plugin Builds Builds) (booting [Some 2%Z; Some 2%Z]) in
  (p, w).

(** The client code in which both constructors build their client, and the
    call that the runs make. *)
Definition both_build : grpcplugin.ClientCode := code Builds Builds.

Definition health : Call := CallCheckHealth tt tt.

(** The imports of package [plugins]: a response is the number of the
    endpoint that answered, 2 for the v2 endpoint and 1 for the legacy one,
    and 0 is the zero response. *)
Definition quote_mark : string := String (Ascii.ascii_of_nat 34) EmptyString.

Definition backslash : string := String (Ascii.ascii_of_nat 92) EmptyString.

Definition hex_digit (n : nat) : string :=
  String.substring n 1 "0123456789abcdef".

(** [strconv.Quote], byte by byte: a backslash before a quote mark and a
    backslash, Go's letter escapes for the control characters that have one,
    [\x] and two hexadecimal digits for the other control characters and for
    DEL, and every other byte as it is.  Go decodes bytes above 0x7f as UTF-8
    and keeps the printable runes; its table of printable runes is not
    modelled, and these bytes are kept. *)
Definition quote_byte (a : Ascii.ascii) : string :=
  let n := Ascii.nat_of_ascii a in
  if Nat.eqb n 34 then backslash ++ quote_mark
  else if Nat.eqb n 92 then backslash ++ backslash
  else if Nat.eqb n 7 then backslash ++ "a"
  else if Nat.eqb n 8 then backslash ++ "b"
  else if Nat.eqb n 12 then backslash ++ "f"
  else if Nat.eqb n 10 then backslash ++ "n"
  else if Nat.eqb n 13 then backslash ++ "r"
  else if Nat.eqb n 9 then backslash ++ "t"
  else if Nat.eqb n 11 then backslash ++ "v"
  else if Nat.ltb n 32 || Nat.eqb n 127 then
    backslash ++ "x" ++ hex_digit (Nat.div n 16) ++ hex_digit (Nat.modulo n 16)
  else String a EmptyString.

Fixpoint escape (s : string) : string :=
  match s with
  | EmptyString => EmptyString
  | String a rest => (quote_byte a ++ escape rest)%string
  end.

Definition Quote (s : string) : string := (quote_mark ++ escape s ++ quote_mark)%string.

#[export] Instance imports : plugins.Imports :=
  {| plugins.FrontendPluginBase := string * string;
     plugins.base_Id := fst;
     plugins.base_Type := snd;
     plugins.AppPluginRoute := unit;
     plugins.models_DataSource := unit;
     plugins.DataQuery_ := unit;
     plugins.DataResponse := nat;
     plugins.DataResponse_zero := 0%nat;
     plugins.DataPlugin_ := unit;
     plugins.RendererPluginV2 := unit;
     plugins.DatasourcePluginV1 := unit;
     plugins.RendererPluginV1 := unit;
     plugins.strconv_Quote := Quote;
     plugins.DatasourcePluginWrapperV2 := unit;
     plugins.newDataSourcePluginWrapperV2 := fun _ _ _ _ => tt;
     plugins.WrapperV2_Query := fun _ _ _ _ w => ((2%nat, None), w);
     plugins.DatasourcePluginWrapper := unit;
     plugins.newDataSourcePluginWrapper := fun _ _ => tt;
     plugins.Wrapper_Query := fun _ _ _ _ w => ((1%nat, None), w) |}.

(** A data source plugin as decoded from its manifest, before any callback. *)
Definition datasource : plugins.DataSourcePlugin (I := imports) :=
  {| plugins.base := ("test-datasource"%string, "datasource"%string);
     plugins.Annotations := true; plugins.Metrics := true; plugins.Alerting := true;
     plugins.Explore := false; plugins.Table := false; plugins.Logs := false;
     plugins.Tracing := false; plugins.QueryOptions := None; plugins.BuiltIn := false;
     plugins.Mixed := false; plugins.Routes := []; plugins.Streaming := false;
     plugins.Backend := true; plugins.Executable := "gpx_test"%string; plugins.SDK := false;
     plugins.client := None; plugins.legacyClient := None; plugins.logger := None |}.

Definition data_client : plugins.Client (I := imports) :=
  {| plugins.DataPlugin := Some tt; plugins.RendererPlugin := None |}.

Definition renderer_client : plugins.Client (I := imports) :=
  {| plugins.DataPlugin := None; plugins.RendererPlugin := Some tt |}.

Definition legacy_client : plugins.LegacyClient (I := imports) :=
  {| plugins.DatasourcePlugin := Some tt; plugins.LegacyRendererPlugin := None |}.




(** Two sequences of calls without a [Start]. *)
Definition stop_and_call : list (lifetime.Op (E := externals)) :=
  [lifetime.OpStop tt; lifetime.OpCall health].

Definition quiet_calls : list (lifetime.Op (E := externals)) :=
  [lifetime.OpStop tt; lifetime.OpDecommission; lifetime.OpCall health].

(** The world of [started] when the operating system cannot start another
    subprocess. *)
Definition exhausted : SimWorld :=
  {| handles := [Running 2]; spawns := [None] |}.

End Sim.


(** * Properties *)

Import grpcplugin.
Local Open Scope go_scope.

(** Unfolding a method body down to the struct, the world and the log. *)
Ltac unfold_monad :=
  unfold exec, trace, start_state, live_client,
    invoke, CollectMetrics, CheckHealth, CallResource, SubscribeStream,
    PublishStream, RunStream, getPluginClient, no_live_client,
    Start, Stop, Exited, Decommission, IsDecommissioned, IsManaged,
    mutex_Lock, mutex_Unlock, mutex_RLock, mutex_RUnlock,
    load_client, store_client, load_pluginClient, store_pluginClient,
    load_decommissioned, store_decommissioned,
    bind, ret, defer, record, update, field, extern, observe, deref in *;
  cbn [world self accesses fst snd negb app
       client pluginClient_ decommissioned descriptor logger clientFactory
       set_client set_pluginClient set_decommissioned] in *.

(** Case analysis on whatever the body still branches on, innermost
    scrutinee first, reusing the equations of earlier cases. *)
Ltac branch_step :=
  cbn in *;
  first
    [ match goal with
      | Heq : ?x = _ |- context [match ?x with _ => _ end] => rewrite Heq
      end
    | match goal with
      | |- context [match ?x with _ => _ end] =>
          lazymatch x with
          | context [match _ with _ => _ end] => fail
          | _ => destruct x eqn:?
          end
      end ].

Ltac branch := repeat branch_step; cbn in *.

Section GrpcPlugin.
Context {E : Externals} {C : ClientCode}.

(** ** The read path *)

Lemma getPluginClient_exec (p : grpcPlugin) (w : World) :
  exec getPluginClient p w =
  (Returned match live_client p w with
            | Some pc => (Some pc, true)
            | None => (None, false)
            end, p, w).
Proof. unfold_monad; branch; congruence. Qed.


Lemma live_client_Some (p : grpcPlugin) (w : World) (pc : pluginClient) :
  live_client p w = Some pc <->
  exists c, client p = Some c /\ Client_Exited c w = false /\ pluginClient_ p = Some pc.
Proof.
  unfold live_client.
  destruct (client p) as [c|].
  - destruct (Client_Exited c w) eqn:Hex.
    + split; [discriminate |]. intros (c' & Hc & Hx & _).
      injection Hc as <-. congruence.
    + split; [intros Hpc; exists c; auto |].
      intros (c' & _ & _ & Hpc). exact Hpc.
  - split; [discriminate |]. intros (c' & Hc & _). discriminate.
Qed.

Lemma invoke_exec (p : grpcPlugin) (w : World) (c : Call) :
  exec (invoke c) p w =
  match live_client p w with
  | None => (Returned (fails_with ErrPluginUnavailable c), p, w)
  | Some pc => let (r, w') := delegate pc c w in (Returned r, p, w')
  end.
Proof. destruct c; unfold_monad; unfold delegate; branch; congruence. Qed.

(** ** The lifecycle methods, as functions of the struct and the world *)

Lemma Stop_exec (ctx : context_Context) (p : grpcPlugin) (w : World) :
  exec (Stop ctx) p w =
  (Returned None, p, match client p with Some c => Client_Kill c w | None => w end).
Proof. unfold_monad; branch; congruence. Qed.

Lemma Exited_exec (p : grpcPlugin) (w : World) :
  exec Exited p w =
  (Returned match client p with Some c => Client_Exited c w | None => true end, p, w).
Proof. unfold_monad; branch; congruence. Qed.

Lemma Decommission_exec (p : grpcPlugin) (w : World) :
  exec Decommission p w = (Returned None, set_decommissioned true p, w).
Proof. reflexivity. Qed.

Lemma IsDecommissioned_exec (p : grpcPlugin) (w : World) :
  exec IsDecommissioned p w = (Returned (decommissioned p), p, w).
Proof. reflexivity. Qed.

Lemma Start_exec (ctx : context_Context) (p : grpcPlugin) (w : World) :
  exec (Start ctx) p w =
  let (fresh, w0) := clientFactory p w in
  let '((rpcClient, err), w1) := Client_Client fresh w0 in
  match err with
  | Some e => (Returned (Some e), set_client (Some fresh) p, w1)
  | None =>
      let '((pc, cerr), w2) :=
        chosen_constructor (Client_NegotiatedVersion fresh w1)
          (descriptor p) (logger p) rpcClient w1 in
      (Returned (Start_result pc cerr), set_pluginClient pc (set_client (Some fresh) p), w2)
  end.
Proof.
  unfold chosen_constructor, Start_result. unfold_monad. branch; congruence.
Qed.

(** ** Decommissioning *)

(** C1 (as amended): after [Decommission()] the flag is set and
    [IsDecommissioned()] reports it, but no capability method consults it: on
    a decommissioned plugin a call returns what it returned before, in the
    same world; that is [ErrPluginUnavailable] when the handle is absent, has
    exited or no client was negotiated, and the answer of the negotiated
    client otherwise. *)
Theorem Decommission_does_not_gate_calls (p : grpcPlugin) (w : World) (c : Call) :
  let p' := set_decommissioned true p in
  exec Decommission p w = (Returned None, p', w) /\
  exec IsDecommissioned p' w = (Returned true, p', w) /\
  fst (fst (exec (invoke c) p' w)) = fst (fst (exec (invoke c) p w)) /\
  snd (exec (invoke c) p' w) = snd (exec (invoke c) p w) /\
  exec (invoke c) p' w =
    match live_client p w with
    | None => (Returned (fails_with ErrPluginUnavailable c), p', w)
    | Some pc => let (r, w') := delegate pc c w in (Returned r, p', w')
    end.
Proof.
  cbn zeta. split; [apply Decommission_exec|]. split; [apply IsDecommissioned_exec|].
  rewrite !invoke_exec.
  replace (live_client (set_decommissioned true p) w) with (live_client p w)
    by reflexivity.
  destruct (live_client p w) as [pc|]; [destruct (delegate pc c w)|]; repeat split.
Qed.

(** ** The client field *)

(** C2 (as amended): the client field is written by [Start] only -- [Stop],
    [Exited], [Decommission], [IsDecommissioned], [PluginID], [Logger],
    [IsManaged], [getPluginClient] and the capability calls leave it as it is,
    so that neither a [Stop] nor an exit of the subprocess sets it to nil --
    and it is non-nil after every [Start] that returns nil.  [getPluginClient]
    returns a client exactly when the struct has a handle, that handle does
    not report an exit, and the field is non-nil -- then it is the field's
    value -- and [(nil, false)] otherwise.  So after a [Stop] it returns
    [(nil, false)], go-plugin's handle reporting the exit once [Kill()] has
    returned. *)
Theorem client_field_is_gated_on_read (ctx : context_Context) (p : grpcPlugin)
    (w : World) (pc : pluginClient) (c : Call) :
  snd (fst (exec (Stop ctx) p w)) = p /\
  (pluginClient_ (snd (fst (exec Decommission p w))) = pluginClient_ p /\
   snd (fst (exec Exited p w)) = p /\
   snd (fst (exec getPluginClient p w)) = p /\
   snd (fst (exec (invoke c) p w)) = p) /\
  (snd (fst (exec IsDecommissioned p w)) = p /\
   snd (fst (exec PluginID p w)) = p /\
   snd (fst (exec Logger p w)) = p /\
   snd (fst (exec IsManaged p w)) = p) /\
  (fst (fst (exec getPluginClient p w)) = Returned (Some pc, true) <->
   exists h, client p = Some h /\ Client_Exited h w = false /\ pluginClient_ p = Some pc) /\
  (fst (fst (exec getPluginClient p w)) = Returned (None, false) \/
   exists pc', fst (fst (exec getPluginClient p w)) = Returned (Some pc', true)) /\
  match exec (Start ctx) p w with
  | (Returned None, p', _) => client p' <> None /\ pluginClient_ p' <> None
  | _ => True
  end /\
  (match client p with
   | Some h => Client_Exited h (Client_Kill h w) = true
   | None => True
   end ->
   fst (fst (exec getPluginClient p (snd (exec (Stop ctx) p w)))) =
     Returned (None, false)).
Proof.
  rewrite Stop_exec, Exited_exec, invoke_exec, !getPluginClient_exec. cbn [fst snd].
  split; [reflexivity|]. split; [|split; [|split; [|split; [|split]]]].
  - repeat split.
    destruct (live_client p w) as [pc'|]; [destruct (delegate pc' c w)|]; reflexivity.
  - repeat split.
  - rewrite <- live_client_Some.
    destruct (live_client p w); split; intros Heq; congruence.
  - destruct (live_client p w) as [pc'|]; [right; exists pc'|left]; reflexivity.
  - rewrite Start_exec. unfold Start_result. branch; try exact I.
    split; discriminate.
  - unfold live_client. destruct (client p) as [h|]; [intros ->|]; reflexivity.
Qed.


(** ** Exited and Stop *)

(** C7: [Exited()] returns true if and only if there is no subprocess handle
    (the plugin was never started) or the handle reports that the subprocess
    has exited; with a handle, it returns the handle's exited status. *)
Theorem Exited_iff_no_handle_or_terminated (p : grpcPlugin) (w : World) :
  (fst (fst (exec Exited p w)) = Returned true <->
   client p = None \/ exists c, client p = Some c /\ Client_Exited c w = true) /\
  match client p with
  | Some c => exec Exited p w = (Returned (Client_Exited c w), p, w)
  | None => exec Exited p w = (Returned true, p, w)
  end.
Proof.
  rewrite Exited_exec. cbn [fst snd].
  destruct (client p) as [c|]; split; try reflexivity.
  - split.
    + intros Heq. right. exists c. split; [reflexivity | congruence].
    + intros [Hc | (c' & Hc & Hx)]; [discriminate |].
      injection Hc as <-. congruence.
  - split; [left|]; reflexivity.
Qed.

(** ** Start *)

(** C4 (as amended): when [Start] has obtained the connection, it calls the
    v2 constructor if the negotiated version is greater than 1 and the v1
    constructor otherwise, and stores the client that constructor returns.
    If the constructor returns an error, [Start] fails with that error; if it
    returns neither an error nor a client, [Start] fails with "no compatible
    plugin implementation found"; [Start] returns nil only with a non-nil
    client in the field. *)
Theorem Start_negotiates_by_version (ctx : context_Context) (p : grpcPlugin)
    (w w0 w1 w2 : World) (fresh : plugin_Client)
    (rpcClient : option plugin_ClientProtocol)
    (pc : option pluginClient) (cerr : option error) :
  clientFactory p w = (fresh, w0) ->
  Client_Client fresh w0 = ((rpcClient, None), w1) ->
  chosen_constructor (Client_NegotiatedVersion fresh w1)
    (descriptor p) (logger p) rpcClient w1 = ((pc, cerr), w2) ->
  ((1 < Client_NegotiatedVersion fresh w1)%Z ->
   chosen_constructor (Client_NegotiatedVersion fresh w1) = newClientV2) /\
  ((Client_NegotiatedVersion fresh w1 <= 1)%Z ->
   chosen_constructor (Client_NegotiatedVersion fresh w1) = newClientV1) /\
  exec (Start ctx) p w =
    (Returned match cerr, pc with
              | Some e, _ => Some e
              | None, None =>
                  Some (errors_New "no compatible plugin implementation found")
              | None, Some _ => None
              end,
     set_pluginClient pc (set_client (Some fresh) p), w2) /\
  (fst (fst (exec (Start ctx) p w)) = Returned None ->
   pluginClient_ (snd (fst (exec (Start ctx) p w))) <> None).
Proof.
  intros Hfactory Hclient Hctor.
  assert (Hexec := Start_exec ctx p w).
  rewrite Hfactory, Hclient, Hctor in Hexec. rewrite Hexec. cbn [fst snd].
  unfold chosen_constructor, Start_result.
  repeat split.
  - intros Hv. apply Z.gtb_lt in Hv. rewrite Hv. reflexivity.
  - intros Hv. destruct (Z.gtb_spec (Client_NegotiatedVersion fresh w1) 1) as [Hgt|_].
    + exfalso. apply (Z.lt_irrefl 1). eapply Z.lt_le_trans; eassumption.
    + reflexivity.
  - destruct cerr, pc; cbn; congruence.
Qed.

(** C5 (as amended): [Start] has no guard against being called again.  On a
    plugin that holds a handle and a client already it does what it does on
    one that holds neither: it puts a fresh handle of the client factory in
    place of the previous one, which it does not kill, negotiates on the fresh
    handle, returns the same result and leaves the same world; and when it
    returns nil, the struct it leaves is the same too, with the client built
    on the fresh handle. *)
Theorem Start_again_is_a_first_Start (ctx : context_Context) (p : grpcPlugin)
    (w : World) :
  let never_started := set_pluginClient None (set_client None p) in
  fst (fst (exec (Start ctx) p w)) = fst (fst (exec (Start ctx) never_started w)) /\
  snd (exec (Start ctx) p w) = snd (exec (Start ctx) never_started w) /\
  client (snd (fst (exec (Start ctx) p w))) = Some (fst (clientFactory p w)) /\
  match fst (fst (exec (Start ctx) p w)) with
  | Returned None =>
      snd (fst (exec (Start ctx) p w)) = snd (fst (exec (Start ctx) never_started w))
  | _ => True
  end.
Proof.
  cbn zeta. rewrite !Start_exec. unfold Start_result. cbn.
  destruct (clientFactory p w) as [fresh w0].
  destruct (Client_Client fresh w0) as [[rpcClient [e|]] w1]; cbn.
  - repeat split.
  - destruct (chosen_constructor _ _ _ _ _) as [[pc cerr] w2]. cbn.
    destruct cerr, pc; repeat split.
Qed.

(** ** Locking *)

(** C9: [Start] and [Stop] take the exclusive lock and [Exited] and
    [getPluginClient] the shared lock, and each of the four accesses the
    fields under its lock only.  [Decommission] takes the shared lock, not the
    exclusive one, and writes the flag under it; [IsDecommissioned] reads the
    flag without any lock.  Neither keeps the discipline. *)
Theorem Decommission_writes_under_the_shared_lock (ctx : context_Context)
    (p : grpcPlugin) (w : World) :
  (takes (trace (Start ctx) p w) = Exclusive /\
   race_free (trace (Start ctx) p w) = true) /\
  (takes (trace (Stop ctx) p w) = Exclusive /\
   race_free (trace (Stop ctx) p w) = true) /\
  (takes (trace Exited p w) = Shared /\
   race_free (trace Exited p w) = true) /\
  (takes (trace getPluginClient p w) = Shared /\
   race_free (trace getPluginClient p w) = true) /\
  (trace Decommission p w = [EvRLock; EvWrite F_decommissioned; EvRUnlock] /\
   race_free (trace Decommission p w) = false) /\
  (trace IsDecommissioned p w = [EvRead F_decommissioned] /\
   race_free (trace IsDecommissioned p w) = false).
Proof.
  repeat split; try reflexivity; unfold_monad; branch; reflexivity.
Qed.

End GrpcPlugin.

Section CorePlugin.
Context {E : Externals}.

Lemma core_invoke_exec (cp : coreplugin.corePlugin) (c : Call) (w : World) :
  coreplugin.invoke cp c w =
  match coreplugin.handler_for cp c with
  | Some h => let (r, w') := h w in (Returned r, w')
  | None => (Returned (fails_with ErrMethodNotImplemented c), w)
  end.
Proof.
  destruct c; cbn;
    unfold coreplugin.reply, coreplugin.CollectMetrics, coreplugin.CheckHealth,
      coreplugin.CallResource, coreplugin.SubscribeStream, coreplugin.PublishStream,
      coreplugin.RunStream, coreplugin.through, coreplugin.done;
    branch; congruence.
Qed.


(** C10: on a core plugin [Start], [Stop] and [Decommission] return nil and
    do nothing, [Exited()] and [IsDecommissioned()] return false and
    [IsManaged()] returns true.  A capability call returns what the handler
    for it returns, or [ErrMethodNotImplemented] when there is none: an
    [ErrPluginUnavailable] can only be one that a handler returned. *)
Theorem core_plugin_is_never_unavailable (cp : coreplugin.corePlugin)
    (ctx : context_Context) (w : World) (c : Call) :
  coreplugin.Start cp ctx w = (Returned None, w) /\
  coreplugin.Stop cp ctx w = (Returned None, w) /\
  coreplugin.Decommission cp w = (Returned None, w) /\
  coreplugin.Exited cp w = (Returned false, w) /\
  coreplugin.IsDecommissioned cp w = (Returned false, w) /\
  coreplugin.IsManaged cp w = (Returned true, w) /\
  coreplugin.invoke cp c w =
    match coreplugin.handler_for cp c with
    | Some h => let (r, w') := h w in (Returned r, w')
    | None => (Returned (fails_with ErrMethodNotImplemented c), w)
    end /\
  (forall r w',
     coreplugin.invoke cp c w = (Returned r, w') ->
     reply_error r = Some ErrPluginUnavailable ->
     exists h, coreplugin.handler_for cp c = Some h /\ h w = (r, w')).
Proof.
  repeat split; try apply core_invoke_exec.
  intros r w'. rewrite core_invoke_exec.
  destruct (coreplugin.handler_for cp c) as [h|].
  - destruct (h w) as [r0 w0] eqn:Hh. intros Heq _.
    exists h. split; [reflexivity | congruence].
  - intros Heq. injection Heq as <- _. destruct c; discriminate.
Qed.

End CorePlugin.

(** * Runs in the small world *)

#[local] Existing Instance Sim.externals.

(** C1, as stated, fails: a plugin is started, then decommissioned while its
    subprocess runs; [CheckHealth] is still answered by the subprocess. *)
Lemma decommissioned_plugin_still_answers :
  let '(p1, w1) := Sim.started in
  let '(_, p2, w2) := exec Decommission p1 w1 in
  exec IsDecommissioned p2 w2 = (Returned true, p2, w2) /\
  fst (fst (exec (invoke Sim.health) p2 w2)) = Returned (ReplyCheckHealth (Some 0%nat) None) /\
  fst (fst (exec (invoke Sim.health) p2 w2)) <>
    Returned (fails_with ErrPluginUnavailable Sim.health).
Proof. vm_compute. repeat split; discriminate. Qed.

(** C2, as stated, fails: after a [Start] that succeeded and a [Stop], the
    subprocess has exited and the struct still holds the client. *)
Lemma stopped_plugin_still_holds_the_client :
  let '(p1, w1) := Sim.started in
  let '(r2, p2, w2) := exec (Stop tt) p1 w1 in
  r2 = Returned None /\
  fst (fst (exec Exited p2 w2)) = Returned true /\
  pluginClient_ p2 = Some (Sim.clientV2 0) /\
  pluginClient_ p2 <> None.
Proof. vm_compute. repeat split; discriminate. Qed.

(** C4, as stated, fails: the connection is obtained, version 2 is
    negotiated, and the v2 constructor fails with an error of its own; no
    client is constructed, and [Start] fails with the constructor's error, not
    with "no compatible plugin implementation found". *)
Lemma Start_returns_the_constructor_error :
  let failing : ClientCode := Sim.code Sim.Builds (Sim.FailsWith (external_error 7)) in
  let '(r, p', w') :=
    exec (Start (C := failing) tt) (Sim.plugin Sim.Builds (Sim.FailsWith (external_error 7)))
      (Sim.booting [Some 2%Z]) in
  Sim.handles w' = [Sim.Running 2] /\
  pluginClient_ p' = None /\
  r = Returned (Some (external_error 7)) /\
  r <> Returned (Some (errors_New "no compatible plugin implementation found")).
Proof. vm_compute. repeat split; discriminate. Qed.

(** C5, as stated, fails: a second [Start] right after the first returns nil
    as well, so it is no error, and it is no no-op: the struct now refers to a
    second handle, a second subprocess runs, and the first one runs on with
    no handle in the struct to kill it by. *)
Lemma second_Start_spawns_a_second_subprocess :
  let '(p1, w1) := Sim.started in
  let '(r2, p2, w2) := exec (Start (C := Sim.both_build) tt) p1 w1 in
  r2 = Returned None /\
  client p1 = Some 0%nat /\ client p2 = Some 1%nat /\ p2 <> p1 /\
  Sim.handles w1 = [Sim.Running 2] /\
  Sim.handles w2 = [Sim.Running 2; Sim.Running 2] /\ w2 <> w1.
Proof. vm_compute. repeat split; discriminate. Qed.

(** The hypotheses of C4's theorem are met by the first [Start] of the run
    above: version 2 is negotiated, the v2 client is stored, [Start] returns
    nil. *)
Lemma Start_negotiates_by_version_witness :
  let p := Sim.plugin Sim.Builds Sim.Builds in
  let w := Sim.booting [Some 2%Z] in
  let w0 := {| Sim.handles := [Sim.NotStarted]; Sim.spawns := [Some 2%Z] |} in
  let w1 := {| Sim.handles := [Sim.Running 2]; Sim.spawns := [] |} in
  (clientFactory p w = (0%nat, w0) /\
   Client_Client 0%nat w0 = ((Some 0%nat, None), w1) /\
   chosen_constructor (C := Sim.both_build) (Client_NegotiatedVersion 0%nat w1)
     (descriptor p) (logger p) (Some 0%nat) w1 = ((Some (Sim.clientV2 0), None), w1)) /\
  exec (Start (C := Sim.both_build) tt) p w =
    (Returned None, set_pluginClient (Some (Sim.clientV2 0)) (set_client (Some 0%nat) p), w1).
Proof.
  cbn zeta. split; [repeat split|].
  apply (Start_negotiates_by_version (E := Sim.externals) (C := Sim.both_build) tt
           (Sim.plugin Sim.Builds Sim.Builds) (Sim.booting [Some 2%Z])
           (w0 := {| Sim.handles := [Sim.NotStarted]; Sim.spawns := [Some 2%Z] |})
           (w1 := {| Sim.handles := [Sim.Running 2]; Sim.spawns := [] |})
           (fresh := 0%nat) (rpcClient := Some 0%nat)
           (pc := Some (Sim.clientV2 0)) (cerr := None));
    reflexivity.
Defined.

(** C2's condition on [Kill()] holds in the small world, on the started
    plugin: after [Stop] no client is returned. *)
Lemma client_field_is_gated_on_read_witness :
  Client_Exited 0%nat (Client_Kill 0%nat (snd Sim.started)) = true /\
  fst (fst (exec getPluginClient (fst Sim.started)
              (snd (exec (Stop tt) (fst Sim.started) (snd Sim.started))))) =
    Returned (None, false).
Proof.
  split; [reflexivity|].
  apply (client_field_is_gated_on_read (E := Sim.externals) (C := Sim.both_build) tt
           (fst Sim.started) (snd Sim.started) (Sim.clientV2 0) Sim.health).
  reflexivity.
Defined.

(** ** Stop, twice *)

Lemma Stop_trace {E : Externals} (ctx : context_Context) (p : grpcPlugin) (w : World) :
  trace (Stop ctx) p w =
  match client p with
  | Some _ => [EvLock; EvRead F_client; EvRead F_client; EvUnlock]
  | None => [EvLock; EvRead F_client; EvUnlock]
  end.
Proof. unfold_monad; branch; reflexivity. Qed.

Lemma nth_error_replace {A} (l : list A) (i : nat) (x y : A) :
  nth_error l i = Some y -> nth_error (Sim.replace i x l) i = Some x.
Proof.
  revert i. induction l as [|a l IH]; intros [|i] Hnth; cbn in *;
    try discriminate; [reflexivity | apply IH; exact Hnth].
Qed.

(** In the small world a second [Kill()] on a handle finds no subprocess
    running and does nothing. *)
Lemma Kill_Kill (c : nat) (w : Sim.SimWorld) :
  Sim.Kill c (Sim.Kill c w) = Sim.Kill c w.
Proof.
  unfold Sim.Kill at 2 3.
  destruct (nth_error (Sim.handles w) c) as [[| v | |]|] eqn:Hnth;
    unfold Sim.Kill; try (rewrite Hnth; reflexivity).
  cbn [Sim.set_handle Sim.handles].
  rewrite (nth_error_replace _ _ Sim.Killed Hnth). reflexivity.
Qed.

(** C8: [Stop] always returns nil and never panics; with a handle its only
    effect is [Kill()] on that handle, without one it has no effect at all; it
    leaves the struct as it is, and it releases the lock it takes, so that a
    second [Stop] finds the mutex free: the accesses of two [Stop]s in a row
    keep the locking discipline.  The second [Stop] again returns nil, leaves
    the struct as it is and calls [Kill()] on the same handle; the two leave
    the world of one exactly when that second [Kill()] changes nothing.  With
    go-plugin's handle, on which [Kill()] has nothing to do once the
    subprocess is gone, [Stop] twice is [Stop] once, in every state of the
    struct and of the world. *)
Theorem Stop_is_idempotent :
  (forall (E : Externals) (ctx : context_Context) (p : grpcPlugin (E := E)) (w : World),
     let killed := match client p with Some c => Client_Kill c w | None => w end in
     exec (Stop ctx) p w = (Returned None, p, killed) /\
     (client p = None -> exec (Stop ctx) p w = (Returned None, p, w)) /\
     trace (Stop ctx) p w =
       match client p with
       | Some _ => [EvLock; EvRead F_client; EvRead F_client; EvUnlock]
       | None => [EvLock; EvRead F_client; EvUnlock]
       end /\
     race_free (trace (Stop ctx) p w ++ trace (Stop ctx) p killed) = true /\
     exec (Stop ctx) p killed =
       (Returned None, p,
        match client p with Some c => Client_Kill c killed | None => killed end) /\
     (exec (Stop ctx) p killed = exec (Stop ctx) p w <->
      match client p with
      | Some c => Client_Kill c (Client_Kill c w) = Client_Kill c w
      | None => True
      end)) /\
  (forall (ctx : unit) (p : grpcPlugin (E := Sim.externals)) (w : Sim.SimWorld),
     exec (Stop ctx) p (snd (exec (Stop ctx) p w)) = exec (Stop ctx) p w).
Proof.
  split.
  - intros E ctx p w. cbn zeta. rewrite !Stop_exec, !Stop_trace.
    split; [reflexivity|]. split; [intros ->; reflexivity|].
    split; [reflexivity|]. split; [destruct (client p); reflexivity|].
    split; [reflexivity|].
    destruct (client p) as [c|]; [|split; reflexivity].
    split; [intros Heq; injection Heq as Heq; exact Heq | intros ->; reflexivity].
  - intros ctx p w. rewrite !Stop_exec. cbn [snd].
    destruct (client p) as [c|]; [|reflexivity].
    change (Client_Kill c) with (Sim.Kill c). rewrite Kill_Kill. reflexivity.
Qed.

(** C8's condition holds on a plugin that was never started: [Stop] has no
    effect on it. *)
Lemma Stop_is_idempotent_witness :
  let p := Sim.plugin Sim.Builds Sim.Builds in
  let w := Sim.booting [Some 2%Z] in
  client p = None /\ exec (Stop tt) p w = (Returned None, p, w).
Proof.
  cbn zeta. split; [reflexivity|].
  apply (proj1 (proj2 (proj1 Stop_is_idempotent Sim.externals tt
                         (Sim.plugin Sim.Builds Sim.Builds) (Sim.booting [Some 2%Z])))).
  reflexivity.
Defined.



(** C10's last condition holds for a core plugin whose health handler
    returns [ErrPluginUnavailable] itself. *)
Lemma core_plugin_is_never_unavailable_witness :
  let cp := Sim.core (Some Sim.upstream_down) in
  let w := Sim.booting [] in
  coreplugin.invoke cp Sim.health w =
    (Returned (ReplyCheckHealth None (Some ErrPluginUnavailable)), w) /\
  exists h, coreplugin.handler_for cp Sim.health = Some h /\
            h w = (ReplyCheckHealth None (Some ErrPluginUnavailable), w).
Proof.
  split; [reflexivity|].
  apply (core_plugin_is_never_unavailable (E := Sim.externals)
           (Sim.core (Some Sim.upstream_down)) tt
           (Sim.booting []) Sim.health); reflexivity.
Defined.


(** * Sequences of calls on one plugin *)

Section Lifetime.
Context {E : Externals} {C : ClientCode}.
Import lifetime.

(** What one call does to the struct, whatever the state and the world. *)
Lemma step_facts (o : Op) (p : grpcPlugin) (w : World) :
  fst (fst (step o p w)) = true /\
  descriptor (snd (fst (step o p w))) = descriptor p /\
  logger (snd (fst (step o p w))) = logger p /\
  clientFactory (snd (fst (step o p w))) = clientFactory p /\
  decommissioned (snd (fst (step o p w))) = decommissioned p || is_Decommission o /\
  has_handle (snd (fst (step o p w))) = has_handle p || is_Start o.
Proof.
  unfold has_handle.
  destruct o; unfold step, method;
    try rewrite Start_exec; try rewrite Stop_exec; try rewrite Exited_exec;
    try rewrite invoke_exec; try rewrite Decommission_exec;
    try rewrite IsDecommissioned_exec; unfold Start_result; cbn.
  all: branch; rewrite ?orb_false_r, ?orb_true_r; repeat split; congruence.
Qed.

Lemma run_facts (ops : list Op) (p : grpcPlugin) (w : World) :
  fst (fst (run ops p w)) = true /\
  descriptor (snd (fst (run ops p w))) = descriptor p /\
  logger (snd (fst (run ops p w))) = logger p /\
  clientFactory (snd (fst (run ops p w))) = clientFactory p /\
  decommissioned (snd (fst (run ops p w))) =
    decommissioned p || existsb is_Decommission ops /\
  has_handle (snd (fst (run ops p w))) = has_handle p || existsb is_Start ops.
Proof.
  revert p w. induction ops as [|o rest IH]; intros p w.
  - cbn. rewrite !orb_false_r. repeat split.
  - cbn [run existsb].
    destruct (step_facts o p w) as (Hok & Hd & Hl & Hf & Hdec & Hh).
    destruct (step o p w) as [[ok p1] w1]. cbn [fst snd] in *. subst ok.
    destruct (IH p1 w1) as (Hok' & Hd' & Hl' & Hf' & Hdec' & Hh').
    rewrite Hd', Hl', Hf', Hdec', Hh', Hd, Hl, Hf, Hdec, Hh, !orb_assoc.
    repeat split. exact Hok'.
Qed.

(** X1: no method of a [grpcPlugin] panics, in whatever state of the struct
    and of the world it is called and whatever was called before: every
    sequence of calls runs to its end. *)
Theorem no_call_sequence_panics (ops : list Op) (p : grpcPlugin) (w : World) :
  fst (fst (run ops p w)) = true.
Proof. apply run_facts. Qed.

(** X2: the identity of a plugin is fixed at creation.  On the plugin that
    [newPlugin] makes for a descriptor, [PluginID()] returns the descriptor's
    id -- not the id passed to the factory --, [IsManaged()] the descriptor's
    flag and [Logger()] the factory's logger, after every sequence of calls;
    none of the three touches the struct or the world, and the client factory
    stays the one made at creation. *)
Theorem identity_is_fixed_at_creation (d : PluginDescriptor) (id : string)
    (l : log_Logger) (env : list string) (ops : list Op) (w : World) :
  let p0 := fst (newPlugin d id l env) in
  let p' := snd (fst (run ops p0 w)) in
  let w' := snd (run ops p0 w) in
  exec PluginID p' w' = (Returned (pluginID d), p', w') /\
  exec IsManaged p' w' = (Returned (managed d), p', w') /\
  exec Logger p' w' = (Returned l, p', w') /\
  clientFactory p' =
    plugin_NewClient (newClientConfig (executablePath d) env l (versionedPlugins d)).
Proof.
  cbn zeta.
  destruct (run_facts ops (fst (newPlugin d id l env)) w) as (_ & Hd & Hl & Hf & _).
  unfold exec, PluginID, IsManaged, Logger, field, bind, ret, start_state.
  cbn [fst snd self world]. rewrite Hd, Hl, Hf. repeat split.
Qed.

(** X3: the decommissioned flag is one-way and only [Decommission] sets it:
    after a sequence of calls it is set exactly when it was set before or the
    sequence contains a [Decommission]; and [IsDecommissioned()] reports it. *)
Theorem decommissioned_is_one_way (ops : list Op) (p : grpcPlugin) (w : World) :
  let p' := snd (fst (run ops p w)) in
  let w' := snd (run ops p w) in
  decommissioned p' = decommissioned p || existsb is_Decommission ops /\
  exec IsDecommissioned p' w' =
    (Returned (decommissioned p || existsb is_Decommission ops), p', w').
Proof.
  cbn zeta. rewrite IsDecommissioned_exec.
  destruct (run_facts ops p w) as (_ & _ & _ & _ & Hdec & _).
  rewrite Hdec. split; reflexivity.
Qed.

(** X4: the handle is installed by [Start] and never removed: after a
    sequence of calls the struct has a handle exactly when it had one before
    or the sequence contains a [Start], successful or not.  From then on
    [Exited()] is the answer of a handle, also after [Stop]. *)
Theorem handle_is_never_cleared (ops : list Op) (p : grpcPlugin) (w : World) :
  let p' := snd (fst (run ops p w)) in
  let w' := snd (run ops p w) in
  has_handle p' = has_handle p || existsb is_Start ops /\
  (has_handle p || existsb is_Start ops = true ->
   exists c, client p' = Some c /\
             exec Exited p' w' = (Returned (Client_Exited c w'), p', w')).
Proof.
  cbn zeta. destruct (run_facts ops p w) as (_ & _ & _ & _ & _ & Hh).
  split; [exact Hh|]. intros Hsome. rewrite <- Hh in Hsome.
  unfold has_handle in Hsome. rewrite Exited_exec.
  destruct (client (snd (fst (run ops p w)))) as [c|]; [|discriminate].
  exists c. split; reflexivity.
Qed.

(** X5: a plugin that was created and never started is unavailable,
    whatever else was called on it: [Exited()] returns true,
    [getPluginClient] returns [(nil, false)], and every capability call
    returns [ErrPluginUnavailable] without any effect. *)
Theorem never_started_plugin_is_unavailable (d : PluginDescriptor) (id : string)
    (l : log_Logger) (env : list string) (ops : list Op) (w : World) (c : Call) :
  existsb is_Start ops = false ->
  let p' := snd (fst (run ops (fst (newPlugin d id l env)) w)) in
  let w' := snd (run ops (fst (newPlugin d id l env)) w) in
  exec Exited p' w' = (Returned true, p', w') /\
  exec getPluginClient p' w' = (Returned (None, false), p', w') /\
  exec (invoke c) p' w' = (Returned (fails_with ErrPluginUnavailable c), p', w').
Proof.
  intros Hnone. cbn zeta.
  destruct (run_facts ops (fst (newPlugin d id l env)) w) as (_ & _ & _ & _ & _ & Hh).
  rewrite Hnone in Hh. unfold has_handle in Hh. cbn in Hh.
  rewrite Exited_exec, getPluginClient_exec, invoke_exec. unfold live_client.
  destruct (client _); [discriminate|]. repeat split.
Qed.

(** X14: only [Start] writes the handle and the client.  Over a sequence of
    calls without a [Start] the struct changes in its decommissioned flag at
    most: it ends as the struct it began as, with the flag set if it was set
    or a [Decommission] was called. *)
Theorem only_Start_writes_the_handle (ops : list Op) (p : grpcPlugin) (w : World) :
  existsb is_Start ops = false ->
  snd (fst (run ops p w)) =
    set_decommissioned (decommissioned p || existsb is_Decommission ops) p.
Proof.
  revert p w. induction ops as [|o rest IH]; intros p w Hnone.
  - cbn. rewrite orb_false_r. destruct p; reflexivity.
  - cbn [existsb] in Hnone. apply orb_false_iff in Hnone as [Ho Hrest].
    cbn [run existsb].
    assert (Hstep : fst (fst (step o p w)) = true /\
                    snd (fst (step o p w)) =
                      set_decommissioned (decommissioned p || is_Decommission o) p).
    { destruct (step_facts o p w) as (Hok & _). split; [exact Hok|].
      destruct o; try discriminate; unfold step, method;
        try rewrite Stop_exec; try rewrite Exited_exec; try rewrite invoke_exec;
        try rewrite Decommission_exec; try rewrite IsDecommissioned_exec; cbn;
        branch; rewrite ?orb_false_r, ?orb_true_r; destruct p; reflexivity. }
    destruct Hstep as [Hok Hp1].
    destruct (step o p w) as [[ok p1] w1]. cbn [fst snd] in *. subst ok p1.
    rewrite (IH _ w1 Hrest). cbn. rewrite orb_assoc. reflexivity.
Qed.

(** X6: after a [Start] that returned nil, in every later world in which
    [Exited()] is still false, [getPluginClient] hands out the client that
    this [Start] stored and every capability call is answered by it. *)
Theorem started_plugin_answers (ctx : context_Context) (p : grpcPlugin)
    (w w2 : World) (c : Call) :
  let p' := snd (fst (exec (Start ctx) p w)) in
  fst (fst (exec (Start ctx) p w)) = Returned None ->
  fst (fst (exec Exited p' w2)) = Returned false ->
  exists pc,
    pluginClient_ p' = Some pc /\
    exec getPluginClient p' w2 = (Returned (Some pc, true), p', w2) /\
    exec (invoke c) p' w2 = let (r, w3) := delegate pc c w2 in (Returned r, p', w3).
Proof.
  cbn zeta. rewrite Start_exec.
  destruct (clientFactory p w) as [fresh w0].
  destruct (Client_Client fresh w0) as [[rpcClient [e|]] w1]; cbn [fst snd];
    [discriminate|].
  destruct (chosen_constructor _ _ _ _ _) as [[pc cerr] w']. cbn [fst snd].
  unfold Start_result. destruct cerr; [discriminate|].
  destruct pc as [pc|]; [|discriminate]. intros _.
  rewrite Exited_exec, getPluginClient_exec, invoke_exec. unfold live_client.
  cbn. intros Hex. injection Hex as Hex. rewrite Hex.
  exists pc. repeat split.
Qed.

(** X7: when the fresh handle cannot produce a connection, [Start] returns
    the handle's error with the fresh handle installed and the client field as
    it was.  On a plugin that was started before, [getPluginClient] then hands
    out the client of the earlier [Start] whenever the fresh handle does not
    report an exit; on one that never had a client it returns [(nil, false)]. *)
Theorem failed_Start_keeps_the_previous_client (ctx : context_Context)
    (p : grpcPlugin) (w w0 w1 w2 : World) (fresh : plugin_Client)
    (rpcClient : option plugin_ClientProtocol) (e : error) :
  clientFactory p w = (fresh, w0) ->
  Client_Client fresh w0 = ((rpcClient, Some e), w1) ->
  let p' := set_client (Some fresh) p in
  exec (Start ctx) p w = (Returned (Some e), p', w1) /\
  exec getPluginClient p' w2 =
    (Returned (if Client_Exited fresh w2 then (None, false)
               else match pluginClient_ p with
                    | Some pc => (Some pc, true)
                    | None => (None, false)
                    end), p', w2).
Proof.
  intros Hfactory Hclient. cbn zeta.
  rewrite Start_exec, Hfactory, Hclient, getPluginClient_exec.
  unfold live_client. cbn.
  split; [reflexivity|].
  destruct (Client_Exited fresh w2); [reflexivity|].
  destruct (pluginClient_ p); reflexivity.
Qed.

(** X8: after [Stop] on a plugin with a handle, once go-plugin's [Kill()]
    has made the handle report the exit, [Exited()] returns true and every
    capability call returns [ErrPluginUnavailable] without reaching the
    client: the call leaves the world as [Stop] left it. *)
Theorem stopped_plugin_is_unavailable (ctx : context_Context) (p : grpcPlugin)
    (w : World) (c : Call) :
  match client p with
  | Some h => Client_Exited h (Client_Kill h w) = true
  | None => True
  end ->
  let w' := snd (exec (Stop ctx) p w) in
  exec Exited p w' = (Returned true, p, w') /\
  exec (invoke c) p w' = (Returned (fails_with ErrPluginUnavailable c), p, w').
Proof.
  cbn zeta. rewrite Stop_exec, Exited_exec, invoke_exec. unfold live_client.
  cbn [snd]. destruct (client p) as [h|]; [intros ->|]; split; reflexivity.
Qed.

(** X9: a capability method accesses the struct through [getPluginClient]
    only: its accesses are those of [getPluginClient], under the shared lock
    and within the locking discipline; [PluginID], [Logger] and [IsManaged]
    take no lock and access no mutable field. *)
Theorem capability_calls_lock_as_getPluginClient (p : grpcPlugin) (w : World)
    (c : Call) :
  trace (invoke c) p w = trace getPluginClient p w /\
  takes (trace (invoke c) p w) = Shared /\
  race_free (trace (invoke c) p w) = true /\
  trace PluginID p w = [] /\ trace Logger p w = [] /\ trace IsManaged p w = [].
Proof.
  repeat split; try reflexivity; destruct c; unfold_monad; branch; reflexivity.
Qed.

End Lifetime.

(** * The data source plugin *)

Section DataSourcePlugin.
Context {E : Externals} {I : plugins.Imports}.
Import plugins.

(** X10: [DataQuery] never panics.  With a client stored by [onPluginStart]
    it queries the v2 endpoint, also when a legacy client is stored as well;
    with a legacy client only it queries the legacy endpoint; with neither it
    returns the zero response and the "can't handle data queries" error, and
    no endpoint is built or queried. *)
Theorem DataQuery_routes_to_the_stored_client (p : DataSourcePlugin)
    (ctx : context_Context) (dsInfo : models_DataSource) (query : DataQuery_)
    (w : World) :
  fst (DataQuery p ctx dsInfo query w) <> Panicked /\
  DataQuery p ctx dsInfo query w =
    match client p, legacyClient p with
    | Some c, _ =>
        let (r, w') :=
          WrapperV2_Query
            (newDataSourcePluginWrapperV2 (logger p) (Id p) (Type_ p) (DataPlugin c))
            ctx dsInfo query w in
        (Returned r, w')
    | None, Some lc =>
        let (r, w') :=
          Wrapper_Query (newDataSourcePluginWrapper (logger p) (DatasourcePlugin lc))
            ctx dsInfo query w in
        (Returned r, w')
    | None, None =>
        (Returned (DataResponse_zero,
                   Some (errors_New ("plugin " ++ strconv_Quote (base_Id (base p)) ++
                                     " can't handle data queries"))), w)
    end.
Proof.
  unfold DataQuery, CanHandleDataQueries, cannot_handle, Id.
  destruct (client p) as [c|]; [|destruct (legacyClient p) as [lc|]]; cbn.
  - destruct (WrapperV2_Query _ _ _ _ _). split; [discriminate | reflexivity].
  - destruct (Wrapper_Query _ _ _ _ _). split; [discriminate | reflexivity].
  - split; [discriminate | reflexivity].
Qed.

Lemma notify_all_facts (evs : list Started) (p : DataSourcePlugin) :
  forallb well_called evs = true ->
  exists p',
    notify_all evs p = (Returned None, p') /\
    client p' = last_data_client evs (client p) /\
    legacyClient p' = last_legacy_client evs (legacyClient p) /\
    base p' = base p.
Proof.
  revert p. induction evs as [|ev rest IH]; intros p Hwell.
  - exists p. repeat split.
  - cbn in Hwell. apply andb_true_iff in Hwell as [Hev Hrest].
    destruct ev as [lc l | [c|] l]; cbn in Hev; try discriminate.
    + destruct (IH (with_legacyClient lc l p) Hrest) as (p' & Hrun & Hc & Hl & Hb).
      exists p'. cbn. repeat split; assumption.
    + cbn. unfold onPluginStart. destruct (DataPlugin c) eqn:Hdp.
      * destruct (IH (with_client (Some c) l p) Hrest) as (p' & Hrun & Hc & Hl & Hb).
        exists p'. repeat split; assumption.
      * destruct (IH p Hrest) as (p' & Hrun & Hc & Hl & Hb).
        exists p'. repeat split; assumption.
Qed.

(** X11: the start callbacks never fail when [onPluginStart] is passed a
    client, and they leave in the struct the client of the last
    [onPluginStart] whose client has a [DataPlugin] and the client of the last
    [onLegacyPluginStart]; a client without a [DataPlugin] is not stored and
    does not replace one stored before. *)
Theorem start_callbacks_keep_the_last_clients (evs : list Started)
    (p : DataSourcePlugin) :
  forallb well_called evs = true ->
  exists p',
    notify_all evs p = (Returned None, p') /\
    client p' = last_data_client evs (client p) /\
    legacyClient p' = last_legacy_client evs (legacyClient p) /\
    CanHandleDataQueries p' =
      match last_data_client evs (client p), last_legacy_client evs (legacyClient p) with
      | None, None => false
      | _, _ => true
      end.
Proof.
  intros Hwell. destruct (notify_all_facts evs p Hwell) as (p' & Hrun & Hc & Hl & _).
  exists p'. unfold CanHandleDataQueries. rewrite Hc, Hl.
  split; [exact Hrun|]. repeat split.
Qed.

Lemma last_data_client_stored (evs : list Started) (before : Client) :
  exists c, last_data_client evs (Some before) = Some c.
Proof.
  revert before. induction evs as [|ev rest IH]; intros before.
  - exists before. reflexivity.
  - destruct ev as [lc l | [c|] l]; cbn; try apply IH.
    destruct (DataPlugin c); apply IH.
Qed.

(** X12: once [onPluginStart] has stored a client, no later callback takes
    the data source back to the legacy endpoint or to "can't handle": after
    every further sequence of callbacks [DataQuery] queries the v2 endpoint. *)
Theorem stored_client_keeps_the_v2_route (evs : list Started) (p : DataSourcePlugin)
    (before : Client) (ctx : context_Context) (dsInfo : models_DataSource)
    (query : DataQuery_) (w : World) :
  client p = Some before ->
  forallb well_called evs = true ->
  exists p' c,
    notify_all evs p = (Returned None, p') /\
    client p' = Some c /\
    DataQuery p' ctx dsInfo query w =
      let (r, w') :=
        WrapperV2_Query
          (newDataSourcePluginWrapperV2 (logger p') (Id p') (Type_ p') (DataPlugin c))
          ctx dsInfo query w in
      (Returned r, w').
Proof.
  intros Hbefore Hwell.
  destruct (notify_all_facts evs p Hwell) as (p' & Hrun & Hc & _ & _).
  rewrite Hbefore in Hc. destruct (last_data_client_stored evs before) as [c Hlast].
  rewrite Hlast in Hc. exists p', c. split; [exact Hrun|]. split; [exact Hc|].
  unfold DataQuery, CanHandleDataQueries. rewrite Hc. reflexivity.
Qed.

(** X13: a v2 plugin without a [DataPlugin] does not make a data source
    queryable: on a struct without clients, after any number of
    [onPluginStart] calls with such clients, [DataQuery] still returns the
    "can't handle data queries" error and leaves the world alone. *)
Theorem client_without_DataPlugin_is_ignored (cs : list (Client * option log_Logger))
    (p : DataSourcePlugin) (ctx : context_Context) (dsInfo : models_DataSource)
    (query : DataQuery_) (w : World) :
  client p = None -> legacyClient p = None ->
  forallb (fun cl => match DataPlugin (fst cl) with None => true | Some _ => false end)
    cs = true ->
  notify_all (map (fun cl => PluginStarted (Some (fst cl)) (snd cl)) cs) p =
    (Returned None, p) /\
  DataQuery p ctx dsInfo query w =
    (Returned (DataResponse_zero, Some (cannot_handle p)), w).
Proof.
  intros Hc Hl Hnone. split.
  - induction cs as [|[c l] rest IH]; [reflexivity|].
    cbn in Hnone. apply andb_true_iff in Hnone as [Hhead Hrest].
    cbn. unfold onPluginStart. destruct (DataPlugin c); [discriminate|].
    apply IH. exact Hrest.
  - unfold DataQuery, CanHandleDataQueries. rewrite Hc, Hl. reflexivity.
Qed.

End DataSourcePlugin.

(** * The core plugin factory *)

Section CorePluginFactory.
Context {E : Externals}.


End CorePluginFactory.

(** * Runs of the sequences in the small world *)

(** X4's condition holds on the started plugin, which has a handle. *)
Lemma handle_is_never_cleared_witness :
  let p := fst Sim.started in
  let w := snd Sim.started in
  let ops := Sim.stop_and_call in
  lifetime.has_handle p || existsb lifetime.is_Start ops = true /\
  exists c,
    client (snd (fst (lifetime.run (C := Sim.both_build) ops p w))) = Some c /\
    exec Exited (snd (fst (lifetime.run (C := Sim.both_build) ops p w)))
      (snd (lifetime.run (C := Sim.both_build) ops p w)) =
    (Returned (Client_Exited c (snd (lifetime.run (C := Sim.both_build) ops p w))),
     snd (fst (lifetime.run (C := Sim.both_build) ops p w)),
     snd (lifetime.run (C := Sim.both_build) ops p w)).
Proof.
  split; [reflexivity|].
  apply (handle_is_never_cleared (E := Sim.externals) (C := Sim.both_build)
           Sim.stop_and_call
           (fst Sim.started) (snd Sim.started)).
  reflexivity.
Defined.

(** X5's condition holds for a sequence of a [Stop], a [Decommission] and a
    call on a fresh plugin. *)
Lemma never_started_plugin_is_unavailable_witness :
  let ops := Sim.quiet_calls in
  let p0 := fst (newPlugin (C := Sim.both_build) Sim.descriptor "x" tt []) in
  let w := Sim.booting [Some 2%Z] in
  existsb lifetime.is_Start ops = false /\
  exec (invoke Sim.health) (snd (fst (lifetime.run (C := Sim.both_build) ops p0 w)))
    (snd (lifetime.run (C := Sim.both_build) ops p0 w)) =
  (Returned (fails_with ErrPluginUnavailable Sim.health),
   snd (fst (lifetime.run (C := Sim.both_build) ops p0 w)),
   snd (lifetime.run (C := Sim.both_build) ops p0 w)).
Proof.
  split; [reflexivity|].
  apply (never_started_plugin_is_unavailable (E := Sim.externals) (C := Sim.both_build)
           Sim.descriptor "x" tt [] Sim.quiet_calls
           (Sim.booting [Some 2%Z]) Sim.health).
  reflexivity.
Defined.

(** X14's condition holds for the same sequence on the started plugin. *)
Lemma only_Start_writes_the_handle_witness :
  let ops := Sim.quiet_calls in
  existsb lifetime.is_Start ops = false /\
  snd (fst (lifetime.run (C := Sim.both_build) ops (fst Sim.started) (snd Sim.started))) =
    set_decommissioned true (fst Sim.started).
Proof.
  split; [reflexivity|].
  apply (only_Start_writes_the_handle (E := Sim.externals) (C := Sim.both_build)
           Sim.quiet_calls
           (fst Sim.started) (snd Sim.started)).
  reflexivity.
Defined.

(** X6's conditions hold for the first [Start] in the small world, in the
    world that this [Start] leaves. *)
Lemma started_plugin_answers_witness :
  let p := Sim.plugin Sim.Builds Sim.Builds in
  let w := Sim.booting [Some 2%Z] in
  let w2 := {| Sim.handles := [Sim.Running 2]; Sim.spawns := [] |} in
  let p' := snd (fst (exec (Start (C := Sim.both_build) tt) p w)) in
  (fst (fst (exec (Start (C := Sim.both_build) tt) p w)) = Returned None /\
   fst (fst (exec Exited p' w2)) = Returned false) /\
  exists pc,
    pluginClient_ p' = Some pc /\
    exec getPluginClient p' w2 = (Returned (Some pc, true), p', w2) /\
    exec (invoke Sim.health) p' w2 =
      let (r, w3) := delegate pc Sim.health w2 in (Returned r, p', w3).
Proof.
  cbn zeta. split; [split; reflexivity|].
  apply (started_plugin_answers (E := Sim.externals) (C := Sim.both_build) tt
           (Sim.plugin Sim.Builds Sim.Builds) (Sim.booting [Some 2%Z])
           {| Sim.handles := [Sim.Running 2]; Sim.spawns := [] |} Sim.health);
    reflexivity.
Defined.

(** X7's conditions hold when the started plugin is started again and the
    operating system cannot start the subprocess: the handle of the failed
    start does not report an exit, and the client of the first [Start] is
    handed out. *)
Lemma failed_Start_keeps_the_previous_client_witness :
  let p := fst Sim.started in
  let w0 := {| Sim.handles := [Sim.Running 2; Sim.NotStarted]; Sim.spawns := [None] |} in
  let w1 := {| Sim.handles := [Sim.Running 2; Sim.Failed]; Sim.spawns := [] |} in
  (clientFactory p Sim.exhausted = (1%nat, w0) /\
   Client_Client 1%nat w0 = ((None, Some (external_error 1)), w1)) /\
  exec (Start (C := Sim.both_build) tt) p Sim.exhausted =
    (Returned (Some (external_error 1)), set_client (Some 1%nat) p, w1) /\
  exec getPluginClient (set_client (Some 1%nat) p) w1 =
    (Returned (Some (Sim.clientV2 0), true), set_client (Some 1%nat) p, w1).
Proof.
  cbn zeta. split; [split; reflexivity|].
  apply (@failed_Start_keeps_the_previous_client Sim.externals Sim.both_build tt
           (fst Sim.started) Sim.exhausted
           {| Sim.handles := [Sim.Running 2; Sim.NotStarted]; Sim.spawns := [None] |}
           {| Sim.handles := [Sim.Running 2; Sim.Failed]; Sim.spawns := [] |}
           {| Sim.handles := [Sim.Running 2; Sim.Failed]; Sim.spawns := [] |}
           1%nat None (external_error 1));
    reflexivity.
Defined.

(** X8's condition on [Kill()] holds on the started plugin. *)
Lemma stopped_plugin_is_unavailable_witness :
  let p := fst Sim.started in
  let w := snd Sim.started in
  let w' := snd (exec (Stop tt) p w) in
  Client_Exited 0%nat (Client_Kill 0%nat w) = true /\
  exec Exited p w' = (Returned true, p, w') /\
  exec (invoke Sim.health) p w' =
    (Returned (fails_with ErrPluginUnavailable Sim.health), p, w').
Proof.
  cbn zeta. split; [reflexivity|].
  apply (stopped_plugin_is_unavailable (E := Sim.externals) tt
           (fst Sim.started) (snd Sim.started) Sim.health).
  reflexivity.
Defined.

(** X11's condition holds for a legacy start, a start with a client that
    has a [DataPlugin] and a start with one that has none. *)
Lemma start_callbacks_keep_the_last_clients_witness :
  let evs := [plugins.LegacyStarted (Some Sim.legacy_client) None;
              plugins.PluginStarted (Some Sim.data_client) None;
              plugins.PluginStarted (Some Sim.renderer_client) None] in
  forallb plugins.well_called evs = true /\
  exists p',
    plugins.notify_all evs Sim.datasource = (Returned None, p') /\
    plugins.client p' = Some Sim.data_client /\
    plugins.legacyClient p' = Some Sim.legacy_client /\
    plugins.CanHandleDataQueries p' = true.
Proof.
  cbn zeta. split; [reflexivity|].
  apply (start_callbacks_keep_the_last_clients (E := Sim.externals) (I := Sim.imports)
           [plugins.LegacyStarted (Some Sim.legacy_client) None;
            plugins.PluginStarted (Some Sim.data_client) None;
            plugins.PluginStarted (Some Sim.renderer_client) None] Sim.datasource).
  reflexivity.
Defined.

(** X12's conditions hold when a legacy start follows the start that stored
    the client: the query is answered by the v2 endpoint. *)
Lemma stored_client_keeps_the_v2_route_witness :
  let p := plugins.with_client (Some Sim.data_client) None Sim.datasource in
  let evs := [plugins.LegacyStarted (Some Sim.legacy_client) None] in
  (plugins.client p = Some Sim.data_client /\
   forallb plugins.well_called evs = true) /\
  exists p' c,
    plugins.notify_all evs p = (Returned None, p') /\
    plugins.client p' = Some c /\
    plugins.DataQuery p' tt tt tt (Sim.booting []) =
      let (r, w') :=
        plugins.WrapperV2_Query
          (plugins.newDataSourcePluginWrapperV2 (plugins.logger p') (plugins.Id p')
             (plugins.Type_ p') (plugins.DataPlugin c)) tt tt tt (Sim.booting []) in
      (Returned r, w').
Proof.
  cbn zeta. split; [split; reflexivity|].
  apply (@stored_client_keeps_the_v2_route Sim.externals Sim.imports
           [plugins.LegacyStarted (Some Sim.legacy_client) None]
           (plugins.with_client (Some Sim.data_client) None Sim.datasource)
           Sim.data_client tt tt tt (Sim.booting []));
    reflexivity.
Defined.

(** X13's conditions hold for a client that carries a renderer only. *)
Lemma client_without_DataPlugin_is_ignored_witness :
  let cs := [(Sim.renderer_client, None)] in
  (plugins.client Sim.datasource = None /\
   plugins.legacyClient Sim.datasource = None /\
   forallb (fun cl => match plugins.DataPlugin (fst cl) with
                      | None => true
                      | Some _ => false
                      end) cs = true) /\
  plugins.notify_all (map (fun cl => plugins.PluginStarted (Some (fst cl)) (snd cl)) cs)
    Sim.datasource = (Returned None, Sim.datasource) /\
  plugins.DataQuery Sim.datasource tt tt tt (Sim.booting []) =
    (Returned (0%nat, Some (plugins.cannot_handle Sim.datasource)), Sim.booting []).
Proof.
  cbn zeta. split; [repeat split|].
  apply (client_without_DataPlugin_is_ignored (E := Sim.externals) (I := Sim.imports)
           [(Sim.renderer_client, None)] Sim.datasource tt tt tt (Sim.booting []));
    reflexivity.
Defined.

